(** * FPS simulation & validation dashboard: the server routes

    A shallow embedding of the two SvelteKit server routes of the repository,
    [/validation-status] and [/sim.json], each of which exists in two
    versions:

    - [src/frontend/src/routes/validation-status/+server.ts]: spawns the
      validation script and answers a failure with a 500 error record;
    - [src/unnamed/part_000]: the same route with
      [generateMockValidationStatus] as serverless path and fallback;
    - [src/unnamed/part_002]: the simulation route, failures answered with a
      500 error record;
    - [src/unnamed/part_001]: the simulation route with [generateMockSimData]
      as serverless path and fallback.

    Conventions of the embedding.

    - A handler is a function of what its environment decides: the
      environment variables, the events of the spawned process in the
      order its listeners receive them (chunks of stdout and stderr,
      ['close'] with the exit code, ['error']), an exception thrown before
      the promise is built, and the clock read by
      [new Date().toISOString()].  The listeners are a step function on
      the variables they share ([output], [errorOutput] and the promise);
      the answer of a handler is what its promise is resolved with, [None]
      while the promise is pending.  An exception thrown inside the
      executor of [new Promise] rejects the promise instead ([Invocation],
      [Outcome]).
    - [JSON.stringify(x)] is modelled up to the JSON value [x]; a response
      keeps the typed value it serialises and [stringify] gives the JSON
      tree.
    - JavaScript numbers are modelled exactly: the scores of the validation
      report are rationals ([Q], every quantity there is a small dyadic or
      decimal fraction), the simulation samples are real numbers ([R], with
      the mathematical [sin], [cos], [exp] and [PI]); rounding of binary64
      arithmetic is not modelled. *)

From Stdlib Require Import List String ZArith QArith Qround Bool Lia.
From Stdlib Require Import Reals Lra Sorted.
From Stdlib Require Floats Uint63 Lqa.
Import ListNotations.

Set Implicit Arguments.

Set Warnings "-register-all,-inexact-float".

Local Open Scope string_scope.
Local Open Scope list_scope.

(* ================================================================= *)
(** * JSON values and HTTP responses *)

Module Json.

(** A JSON tree over a number type [num]; an object keeps its keys in
    insertion order, as [JSON.stringify] emits them. *)
Inductive json (num : Type) : Type :=
| JNull
| JBool (b : bool)
| JNum (n : num)
| JStr (s : string)
| JArr (items : list (json num))
| JObj (fields : list (string * json num)).

Arguments JNull {num}.
Arguments JBool {num} b.
Arguments JStr {num} s.

Section Access.
Variable num : Type.

Fixpoint assoc (k : string) (fields : list (string * json num))
  : option (json num) :=
  match fields with
  | [] => None
  | (k', v) :: rest => if String.eqb k k' then Some v else assoc k rest
  end.

(** [o[k]] for an object [o]; [None] stands for [undefined]. *)
Definition get_field (k : string) (j : json num) : option (json num) :=
  match j with
  | JObj fields => assoc k fields
  | _ => None
  end.

(** [Object.keys(o)]. *)
Definition keys (j : json num) : list string :=
  match j with
  | JObj fields => map fst fields
  | _ => []
  end.

Definition has_field (k : string) (j : json num) : bool :=
  match get_field k j with
  | Some _ => true
  | None => false
  end.

Definition is_object (j : json num) : bool :=
  match j with
  | JObj _ => true
  | _ => false
  end.

(** [{...o, k1: v1, ...}]: the fields of [o] followed by the new ones
    (no key of the literals in the routes repeats one of [o]). *)
Definition spread (j : json num) (extra : list (string * json num))
  : json num :=
  match j with
  | JObj fields => JObj (fields ++ extra)
  | _ => JObj extra
  end.
End Access.

End Json.

Module Http.

(** [new Response(JSON.stringify(body), { status, headers })]. *)
Record Response (Body : Type) : Type := mkResponse {
  status : Z;
  headers : list (string * string);
  body : Body
}.

Definition json_headers : list (string * string) :=
  [("Content-Type", "application/json")].

(** A response built without [status] has status 200. *)
Definition ok {Body : Type} (b : Body) : Response Body :=
  mkResponse 200 json_headers b.

Definition server_error {Body : Type} (b : Body) : Response Body :=
  mkResponse 500 json_headers b.

(** What [catch (error)] may receive. *)
Inductive Thrown : Type :=
| ErrorObject (message : string)
| OtherValue.

(** [error instanceof Error ? error.message : 'Unknown error'] *)
Definition thrown_message (e : Thrown) : string :=
  match e with
  | ErrorObject message => message
  | OtherValue => "Unknown error"
  end.

(** ** The spawned process

    The events a child process emits, in the order the listeners of a
    handler receive them: chunks of stdout and stderr, each with the text
    [data.toString()] gives for that chunk alone, ['close'] with the exit
    code ([None] for [null], a process ended by a signal), ['error'] with
    the message of its [Error]. *)
Inductive Event : Type :=
| StdoutData (data : string)
| StderrData (data : string)
| CloseEvent (code : option Z)
| ErrorEvent (message : string).

(** What the promise of a handler is resolved from: the ['close'] listener
    with the exit code and the text gathered so far, or the ['error']
    listener. *)
Inductive Settlement : Type :=
| Close (code : option Z) (output errorOutput : string)
| Error (message : string).

(** The variables the listeners share: [let output = ''],
    [let errorOutput = ''], and the state of the promise ([None] while it is
    pending). *)
Record Child : Type := mkChild {
  output : string;
  errorOutput : string;
  settled : option Settlement
}.

Definition spawn : Child := mkChild EmptyString EmptyString None.

(** [resolve(...)]: only the first call settles the promise. *)
Definition resolve (c : Child) (s : Settlement) : Child :=
  match settled c with
  | Some _ => c
  | None => mkChild (output c) (errorOutput c) (Some s)
  end.

(** One event, delivered to its listener:
    [output += data.toString()], [errorOutput += data.toString()],
    and the two listeners that resolve. *)
Definition listen (c : Child) (ev : Event) : Child :=
  match ev with
  | StdoutData data =>
      mkChild (output c ++ data)%string (errorOutput c) (settled c)
  | StderrData data =>
      mkChild (output c) (errorOutput c ++ data)%string (settled c)
  | CloseEvent code => resolve c (Close code (output c) (errorOutput c))
  | ErrorEvent message => resolve c (Error message)
  end.

(** The promise after the events of a process. *)
Definition await (events : list Event) : option Settlement :=
  settled (fold_left listen events spawn).

(** One execution of a [GET] handler: an exception reaches [catch] before
    the promise is built, or the process is spawned and emits its events. *)
Inductive Run : Type :=
| Throws (error : Thrown)
| Spawned (events : list Event).

(** Chunks of output, [true] for stdout and [false] for stderr, as events
    and as the text the listeners gather from them. *)
Definition data_events (chunks : list (bool * string)) : list Event :=
  map (fun c : bool * string =>
         if fst c then StdoutData (snd c) else StderrData (snd c))
      chunks.

Definition gather (out : bool) (chunks : list (bool * string)) (acc : string)
  : string :=
  fold_left
    (fun (acc : string) (c : bool * string) =>
       if Bool.eqb (fst c) out then (acc ++ snd c)%string else acc)
    chunks acc.

Definition gathered (out : bool) (chunks : list (bool * string)) : string :=
  gather out chunks EmptyString.

(** Does a process settle the promise: is there a ['close'] or an ['error']
    among its events? *)
Definition settles (events : list Event) : bool :=
  existsb (fun ev => match ev with
                     | CloseEvent _ | ErrorEvent _ => true
                     | _ => false
                     end) events.

(** The runs in which a handler that spawns the process has something to
    answer with. *)
Definition completes (run : Run) : bool :=
  match run with
  | Throws _ => true
  | Spawned events => settles events
  end.

(** [process.env]: a variable is [undefined] or a string. *)
Record Env : Type := mkEnv {
  VERCEL : option string;
  AWS_LAMBDA_FUNCTION_NAME : option string
}.

Definition truthy (v : option string) : bool :=
  match v with
  | Some s => negb (String.eqb s EmptyString)
  | None => false
  end.

(** [process.env.VERCEL || process.env.AWS_LAMBDA_FUNCTION_NAME], as the
    condition of an [if]. *)
Definition isServerless (env : Env) : bool :=
  truthy (VERCEL env) || truthy (AWS_LAMBDA_FUNCTION_NAME env).

(** No environment variable set, and [VERCEL=1]. *)
Definition env_local : Env := mkEnv None None.
Definition env_vercel : Env := mkEnv (Some "1") None.

(** ** Exceptions inside the executor

    The handlers write [return new Promise((resolve) => { ... })] inside
    their [try], without [await].  [spawn] is called inside the executor:
    when it throws there (synchronously, as it does for the errors it does
    not report through ['error']), the constructor turns the exception into
    a rejection of the promise, and the [catch] of the handler, which only
    sees exceptions thrown before the promise is returned, is not entered. *)
Inductive Invocation : Type :=
| Runs (run : Run)
| ExecutorThrows (error : Thrown).

(** What the promise of a handler comes to. *)
Inductive Outcome (Body : Type) : Type :=
| Answered (response : Response Body)
| Pending
| Rejected (error : Thrown).

Arguments Pending {Body}.
Arguments Rejected {Body} error.

Definition outcome {Body : Type} (handler : Run -> option (Response Body))
    (i : Invocation) : Outcome Body :=
  match i with
  | Runs run =>
      match handler run with
      | Some response => Answered response
      | None => Pending
      end
  | ExecutorThrows error => Rejected error
  end.

End Http.

(* ================================================================= *)
(** * The validation-status route *)

Module Validation.
Import Json Http.

Local Open Scope Q_scope.

(** ** The report types ([interface ValidationLayer], [ValidationStatus]) *)

(** ['pass' | 'fail' | 'not_implemented' | 'partial'] *)
Inductive LayerStatus : Type :=
| Pass
| Fail
| NotImplemented
| Partial.

(** ['pass' | 'fail'] *)
Inductive OverallStatus : Type :=
| OverallPass
| OverallFail.

Record ValidationLayer : Type := mkLayer {
  id : Z;
  name : string;
  status : LayerStatus;
  details : json Q;
  description : string;
  requirement : string
}.

Record ValidationStatus : Type := mkStatus {
  overall_status : OverallStatus;
  overall_score : Q;
  layers : list ValidationLayer;
  last_updated : string
}.

(** [a === b] on two status strings. *)
Definition status_eqb (a b : LayerStatus) : bool :=
  match a, b with
  | Pass, Pass | Fail, Fail
  | NotImplemented, NotImplemented | Partial, Partial => true
  | _, _ => false
  end.

(** The [.length] of an array, as a number. *)
Definition num (n : nat) : Q := inject_Z (Z.of_nat n).

(** [layers.filter(l => l.status === s).length] *)
Definition count_status (s : LayerStatus) (ls : list ValidationLayer) : nat :=
  List.length (filter (fun l => status_eqb (status l) s) ls).

(** ** Serialisation, as [JSON.stringify] sees the object literals *)

Definition LayerStatus_to_json (s : LayerStatus) : json Q :=
  JStr match s with
       | Pass => "pass"
       | Fail => "fail"
       | NotImplemented => "not_implemented"
       | Partial => "partial"
       end.

Definition OverallStatus_to_json (s : OverallStatus) : json Q :=
  JStr match s with
       | OverallPass => "pass"
       | OverallFail => "fail"
       end.

(** The keys come in the order of the layer literals of both files. *)
Definition ValidationLayer_to_json (l : ValidationLayer) : json Q :=
  JObj [ ("id", JNum (inject_Z (id l)));
         ("name", JStr (name l));
         ("status", LayerStatus_to_json (status l));
         ("description", JStr (description l));
         ("requirement", JStr (requirement l));
         ("details", details l) ].

Definition ValidationStatus_to_json (v : ValidationStatus) : json Q :=
  JObj [ ("overall_status", OverallStatus_to_json (overall_status v));
         ("overall_score", JNum (overall_score v));
         ("layers", JArr (map ValidationLayer_to_json (layers v)));
         ("last_updated", JStr (last_updated v)) ].

(** What a response of the route serialises: a report, or the error record
    [{ error, details }] of the version without fallback. *)
Inductive Body : Type :=
| Report (v : ValidationStatus)
| Failure (error details : string).

Definition stringify (b : Body) : json Q :=
  match b with
  | Report v => ValidationStatus_to_json v
  | Failure error details =>
      JObj [ ("error", JStr error); ("details", JStr details) ]
  end.

(** ** The layers of the local pipeline

    The array literal of the ['close'] handler; it is the same text in
    [+server.ts] (lines 44-123) and in [part_000] (lines 159-238). *)

Definition localLayers : list ValidationLayer :=
  [ {| id := 1;
       name := "Code-level Correctness";
       status := Fail;
       description := "Unit & property tests for each formula";
       requirement := "pytest -q returns 0";
       details := JObj
         [ ("total_tests", JNum 12);
           ("passed_tests", JNum 7);
           ("failed_tests", JNum 5);
           ("failures", JArr
              [ JStr "sigma bounds (hitting 0 and 1 exactly)";
                JStr "tanh bounds (hitting ±1 exactly)";
                JStr "missing _compute_S method";
                JStr "missing _compute_frequency_modulation method";
                JStr "property test bounds violations" ]) ] |};
    {| id := 2;
       name := "Simulation Fidelity";
       status := Partial;
       description := "Golden run byte-for-byte reproducibility";
       requirement := "SHA-256 hashes match reference";
       details := JObj
         [ ("golden_run_implemented", JBool true);
           ("hash_validation_implemented", JBool true);
           ("reference_hashes_exist", JBool false);
           ("csv_hash", JStr
              "121af74e644fe3ff647a52cb638844f56fc3ac337fef336549eacb207dbd759c");
           ("png_hash", JStr
              "02ceae783b5df8466d4d04b0b0d7d877c1534565fabe1b1b933134fa91d518e8")
         ] |};
    {| id := 3;
       name := "Metric Compliance";
       status := Fail;
       description := "All 7 quantitative criteria pass";
       requirement := "All assertions pass, empty criteria_failures.csv";
       details := JObj
         [ ("pass_rate", JNum 0.714);
           ("passed_metrics", JNum 5);
           ("total_metrics", JNum 7);
           ("failed_metrics", JArr [ JStr "fluidity"; JStr "stability" ]);
           ("fluidity_variance", JNum 0.386);
           ("fluidity_threshold", JNum 0.01);
           ("stability_percentage", JNum 0.792);
           ("stability_threshold", JNum 0.95);
           ("max_amplitude_ratio", JNum 257.8) ] |};
    {| id := 4;
       name := "Comparative Edge";
       status := Partial;
       description := "Outperforms Kuramoto control";
       requirement := "CPU ≤ 2x FPS, Regulation ≥ 25% better";
       details := JObj
         [ ("cpu_efficiency_ratio", JNum 0.04);
           ("cpu_efficiency_threshold", JNum 2.0);
           ("cpu_efficiency_passed", JBool true);
           ("regulation_comparison_implemented", JBool false);
           ("regulation_passed", JNull) ] |};
    {| id := 5;
       name := "Visual Fidelity";
       status := NotImplemented;
       description := "Figure generation with pixel-diff validation";
       requirement := "Fig 1 & Fig 2 pixel-diff < 2%";
       details := JObj
         [ ("fig1_implemented", JBool false);
           ("fig2_implemented", JBool false);
           ("pixel_diff_validation", JBool false);
           ("reference_images_exist", JBool false) ] |} ].

(** ** The layers of the mock report ([part_000], lines 23-107) *)

Definition mockLayers : list ValidationLayer :=
  [ {| id := 1;
       name := "Code-level Correctness";
       status := Partial;
       description := "Unit & property tests for each formula";
       requirement := "pytest -q returns 0";
       details := JObj
         [ ("total_tests", JNum 12);
           ("passed_tests", JNum 9);
           ("failed_tests", JNum 3);
           ("failures", JArr
              [ JStr "sigma bounds (hitting 0 and 1 exactly)";
                JStr "tanh bounds (hitting ±1 exactly)";
                JStr "property test bounds violations" ]);
           ("note", JStr
              "Mock data - Python validation not available in serverless environment")
         ] |};
    {| id := 2;
       name := "Simulation Fidelity";
       status := Pass;
       description := "Golden run byte-for-byte reproducibility";
       requirement := "SHA-256 hashes match reference";
       details := JObj
         [ ("golden_run_implemented", JBool true);
           ("hash_validation_implemented", JBool true);
           ("reference_hashes_exist", JBool true);
           ("csv_hash", JStr
              "121af74e644fe3ff647a52cb638844f56fc3ac337fef336549eacb207dbd759c");
           ("png_hash", JStr
              "02ceae783b5df8466d4d04b0b0d7d877c1534565fabe1b1b933134fa91d518e8");
           ("note", JStr "Mock data - simulated validation results") ] |};
    {| id := 3;
       name := "Metric Compliance";
       status := Partial;
       description := "All 7 quantitative criteria pass";
       requirement := "All assertions pass, empty criteria_failures.csv";
       details := JObj
         [ ("pass_rate", JNum 0.857);
           ("passed_metrics", JNum 6);
           ("total_metrics", JNum 7);
           ("failed_metrics", JArr [ JStr "fluidity" ]);
           ("fluidity_variance", JNum 0.012);
           ("fluidity_threshold", JNum 0.01);
           ("stability_percentage", JNum 0.96);
           ("stability_threshold", JNum 0.95);
           ("max_amplitude_ratio", JNum 8.2);
           ("note", JStr "Mock data - improved validation metrics") ] |};
    {| id := 4;
       name := "Comparative Edge";
       status := Pass;
       description := "Outperforms Kuramoto control";
       requirement := "CPU ≤ 2x FPS, Regulation ≥ 25% better";
       details := JObj
         [ ("cpu_efficiency_ratio", JNum 0.04);
           ("cpu_efficiency_threshold", JNum 2.0);
           ("cpu_efficiency_passed", JBool true);
           ("regulation_comparison_implemented", JBool true);
           ("regulation_passed", JBool true);
           ("regulation_improvement", JNum 0.32);
           ("note", JStr "Mock data - simulated performance comparison") ] |};
    {| id := 5;
       name := "Visual Fidelity";
       status := Partial;
       description := "Figure generation with pixel-diff validation";
       requirement := "Fig 1 & Fig 2 pixel-diff < 2%";
       details := JObj
         [ ("fig1_implemented", JBool true);
           ("fig2_implemented", JBool false);
           ("pixel_diff_validation", JBool true);
           ("reference_images_exist", JBool true);
           ("fig1_pixel_diff", JNum 0.015);
           ("note", JStr "Mock data - partial visual validation") ] |} ].

(** ** "Calculate overall status"

    Both computations are written inline after the array literal; they are
    given here as functions of the local [layers] and of the clock, and the
    handlers below apply them to the literals.  An empty [layers] never
    occurs in the routes (JavaScript would give the score [NaN] there, [Q]
    gives [0]; the status is ['fail'] in both). *)

(** The ['close'] handler ([+server.ts] lines 125-136, [part_000] lines
    240-251). *)
Definition closeOverall (layers : list ValidationLayer) (now : string)
  : ValidationStatus :=
  let passedLayers := num (count_status Pass layers) in
  let totalLayers := num (List.length layers) in
  let overallScore := passedLayers / totalLayers in
  let overallStatus :=
    if Qeq_bool overallScore 1.0 then OverallPass else OverallFail in
  {| overall_status := overallStatus;
     overall_score := overallScore;
     layers := layers;
     last_updated := now |}.

(** [generateMockValidationStatus] ([part_000] lines 109-121). *)
Definition mockOverall (layers : list ValidationLayer) (now : string)
  : ValidationStatus :=
  let passedLayers := num (count_status Pass layers) in
  let partialLayers := num (count_status Partial layers) in
  let totalLayers := num (List.length layers) in
  let overallScore := (passedLayers + partialLayers * 0.5) / totalLayers in
  let overallStatus :=
    if Qle_bool 0.8 overallScore then OverallPass else OverallFail in
  {| overall_status := overallStatus;
     overall_score := overallScore;
     layers := layers;
     last_updated := now |}.

(** ** The two verdicts in binary64

    The same two computations on IEEE 754 double-precision numbers, the
    numbers JavaScript has; they are compared below with the exact ones. *)

Module Binary64.
Import PrimFloat.

Definition b64 (n : nat) : PrimFloat.float :=
  PrimFloat.of_uint63 (Uint63.of_Z (Z.of_nat n)).

Definition closeOverall_b64 (layers : list ValidationLayer)
  : PrimFloat.float * OverallStatus :=
  let passedLayers := b64 (count_status Pass layers) in
  let totalLayers := b64 (List.length layers) in
  let overallScore := PrimFloat.div passedLayers totalLayers in
  let overallStatus :=
    if PrimFloat.eqb overallScore 1.0%float then OverallPass else OverallFail in
  (overallScore, overallStatus).

Definition mockOverall_b64 (layers : list ValidationLayer)
  : PrimFloat.float * OverallStatus :=
  let passedLayers := b64 (count_status Pass layers) in
  let partialLayers := b64 (count_status Partial layers) in
  let totalLayers := b64 (List.length layers) in
  let overallScore :=
    PrimFloat.div
      (PrimFloat.add passedLayers (PrimFloat.mul partialLayers 0.5%float))
      totalLayers in
  let overallStatus :=
    if PrimFloat.leb 0.8%float overallScore then OverallPass else OverallFail in
  (overallScore, overallStatus).

End Binary64.

(** [python.on('close', (code) => { ... })]: the handler receives the exit
    code and never reads it, nor [output] and [errorOutput]. *)
Definition onClose (code : option Z) (output errorOutput : string)
    (now : string) : Response Body :=
  let layers := localLayers in
  let validationStatus := closeOverall layers now in
  ok (Report validationStatus).

(** ** [src/frontend/src/routes/validation-status/+server.ts] *)

Module Pipeline.

(** The two listeners that resolve the promise. *)
Definition settle (now : string) (s : Settlement) : Response Body :=
  match s with
  | Close code output errorOutput => onClose code output errorOutput now
  | Error message => server_error (Failure "Failed to run validation" message)
  end.

(** [None]: the promise is still pending after the events. *)
Definition GET (run : Run) (now : string) : option (Response Body) :=
  match run with
  | Spawned events => option_map (settle now) (await events)
  | Throws error =>
      Some (server_error
              (Failure "Internal server error" (thrown_message error)))
  end.

End Pipeline.

(** ** [src/unnamed/part_000] *)

Module WithMock.

Definition generateMockValidationStatus (now : string) : ValidationStatus :=
  let layers := mockLayers in
  mockOverall layers now.

Definition settle (now : string) (s : Settlement) : Response Body :=
  match s with
  | Close code output errorOutput => onClose code output errorOutput now
  | Error message => ok (Report (generateMockValidationStatus now))
  end.

Definition GET (env : Env) (run : Run) (now : string)
  : option (Response Body) :=
  if isServerless env then
    Some (ok (Report (generateMockValidationStatus now)))
  else
    match run with
    | Spawned events => option_map (settle now) (await events)
    | Throws error => Some (ok (Report (generateMockValidationStatus now)))
    end.

End WithMock.

(** ** The reports the route can return *)

(** The report of a response, if the handler answered with one. *)
Definition report (answer : option (Response Body)) : option ValidationStatus :=
  match answer with
  | Some response =>
      match body response with
      | Report v => Some v
      | Failure _ _ => None
      end
  | None => None
  end.

Inductive produced : ValidationStatus -> Prop :=
| produced_pipeline (run : Run) (now : string) (v : ValidationStatus) :
    report (Pipeline.GET run now) = Some v -> produced v
| produced_with_mock (env : Env) (run : Run) (now : string)
    (v : ValidationStatus) :
    report (WithMock.GET env run now) = Some v -> produced v.

(** Whether the reference images of Fig 1 and Fig 2 are on the disk.  No
    handler of the route looks: the two below are the handlers, served on
    a given disk. *)
Record Disk : Type := mkDisk {
  reference_images_present : bool
}.

Definition serve_pipeline (disk : Disk) (run : Run) (now : string)
  : option (Response Body) :=
  Pipeline.GET run now.

Definition serve_with_mock (disk : Disk) (env : Env) (run : Run)
    (now : string) : option (Response Body) :=
  WithMock.GET env run now.

(** A process that writes [chunks], closes with [code], and may emit
    further events. *)
Definition closes (chunks : list (bool * string)) (code : option Z)
    (rest : list Event) : Run :=
  Spawned (data_events chunks ++ CloseEvent code :: rest).

(** The layer of a report with a given id ([layers.find(l => l.id === n)]). *)
Definition layer (n : Z) (v : ValidationStatus) : option ValidationLayer :=
  find (fun l => Z.eqb (id l) n) (layers v).

Definition all_pass (ls : list ValidationLayer) : bool :=
  forallb (fun l => status_eqb (status l) Pass) ls.

(** The score in the words of the specification: a layer counts 1 when it
    passes, 0.5 when it is partial and 0 when it fails or is not
    implemented; the sum is divided by the number of layers. *)
Definition layer_weight (s : LayerStatus) : Q :=
  match s with
  | Pass => 1
  | Partial => 0.5
  | Fail | NotImplemented => 0
  end.

Definition spec_weighted_fraction (ls : list ValidationLayer) : Q :=
  fold_right (fun l acc => layer_weight (status l) + acc) 0 ls
  / num (List.length ls).

(** The layers [ls] with the statuses [ss] in place of their own, to apply
    the two computations to other statuses than those of the literals. *)
Fixpoint restatus (ss : list LayerStatus) (ls : list ValidationLayer)
  {struct ls} : list ValidationLayer :=
  match ls, ss with
  | l :: ls', s :: ss' =>
      mkLayer (id l) (name l) s (details l) (description l) (requirement l)
      :: restatus ss' ls'
  | _, _ => []
  end.

End Validation.

(* ================================================================= *)
(** * The sim.json route *)

Module Sim.
Import Json Http.

Local Open Scope R_scope.

(** [interface SimData]; the fields are [t], [C], [S] and [r] in the source
    (prefixed here: [S] is the successor of [nat]).  [validation] is
    optional and no code of the routes sets it. *)
Record SimData : Type := mkSimData {
  sim_t : list R;
  sim_C : list R;
  sim_S : list R;
  sim_r : list R;
  sim_validation : option (json R)
}.

Definition numbers (xs : list R) : json R := JArr (map (@JNum R) xs).

(** [JSON.stringify] of the literal [{ t, C, S, r }]; an [undefined]
    [validation] is left out. *)
Definition SimData_to_json (d : SimData) : json R :=
  JObj ([ ("t", numbers (sim_t d));
          ("C", numbers (sim_C d));
          ("S", numbers (sim_S d));
          ("r", numbers (sim_r d)) ]
        ++ match sim_validation d with
           | Some v => [ ("validation", v) ]
           | None => []
           end).

(** ** [generateMockSimData] ([part_001], lines 14-26) *)

Definition N : nat := 100.
Definition phi : R := 1.618.
Definition epsilon : R := 0.05.
Definition omega : R := 0.1.

(** [Array.from({ length: N }, (_, i) => i * 0.2)] *)
Definition times : list R := map (fun i => INR i * 0.2) (seq 0 N).

(** The three arrow functions mapped over [t]. *)
Definition r_of (time : R) : R := phi + epsilon * sin (2 * PI * omega * time).
Definition S_of (time : R) : R := sin (2 * PI * 0.1 * time) * exp (- time * 0.01).
Definition C_of (time : R) : R := 0.5 + 0.3 * cos (2 * PI * 0.05 * time).

Definition generateMockSimData : SimData :=
  let t := times in
  let r := map r_of t in
  let S := map S_of t in
  let C := map C_of t in
  {| sim_t := t; sim_C := C; sim_S := S; sim_r := r;
     sim_validation := None |}.

(** The generator with the arrow function of [S] replaced by an arbitrary
    one: the instrument that states what [r] does not depend on. *)
Definition generateMockSimData_with (signal : R -> R) : SimData :=
  let t := times in
  let r := map r_of t in
  let S := map signal t in
  let C := map C_of t in
  {| sim_t := t; sim_C := C; sim_S := S; sim_r := r;
     sim_validation := None |}.

(** The sample times in binary64, and the test that each one is smaller
    than the next. *)
Module Binary64.
Import PrimFloat.

Definition times_b64 : list float :=
  map (fun i => mul (Validation.Binary64.b64 i) 0.2%float) (seq 0 N).

Fixpoint increasing_b64 (xs : list float) : bool :=
  match xs with
  | [] => true
  | x :: rest =>
      match rest with
      | [] => true
      | y :: _ => ltb x y && increasing_b64 rest
      end
  end.

End Binary64.

(** [code !== 0]; [null] is not [0]. *)
Definition nonzero (code : option Z) : bool :=
  match code with
  | Some c => negb (Z.eqb c 0)
  | None => true
  end.

(** [{ error }] and [{ error, details }] *)
Definition error_record (error : string) (details : option string) : json R :=
  JObj (("error", JStr error)
        :: match details with
           | Some d => [ ("details", JStr d) ]
           | None => []
           end).

(** [{ ...mockData, note }] and [{ ...mockData, note, error }] *)
Definition mock_record (note : string) (error : option string) : json R :=
  spread (SimData_to_json generateMockSimData)
         (("note", JStr note)
          :: match error with
             | Some e => [ ("error", JStr e) ]
             | None => []
             end).

Section Routes.

(** [JSON.parse], read together with the [JSON.stringify] that follows it
    in both handlers: [JSON_parse text] is the JSON value the response
    carries for the output [text] (a number outside JSON, such as the
    [Infinity] that [1e400] parses to, is carried as [null]), and [None]
    when [JSON.parse] throws. *)
Variable JSON_parse : string -> option (json R).

(** ** [src/unnamed/part_002]: failures are error records *)

Definition settle_strict (s : Settlement) : Response (json R) :=
  match s with
  | Close code output errorOutput =>
      if nonzero code then
        server_error (error_record "Simulation failed" (Some errorOutput))
      else
        match JSON_parse output with
        | Some data => ok data
        | None =>
            server_error (error_record "Failed to parse simulation results" None)
        end
  | Error message =>
      server_error (error_record "Failed to start simulation" (Some message))
  end.

(** [None]: the promise is still pending after the events. *)
Definition GET_strict (run : Run) : option (Response (json R)) :=
  match run with
  | Spawned events => option_map settle_strict (await events)
  | Throws error =>
      Some (server_error
              (error_record "Internal server error"
                            (Some (thrown_message error))))
  end.

(** ** [src/unnamed/part_001]: failures fall back to the mock series *)

Definition settle_mock (s : Settlement) : Response (json R) :=
  match s with
  | Close code output errorOutput =>
      if nonzero code then
        ok (mock_record "Mock data - Python simulation failed"
                        (Some errorOutput))
      else
        match JSON_parse output with
        | Some data => ok data
        | None =>
            ok (mock_record
                  "Mock data - Failed to parse Python simulation results"
                  None)
        end
  | Error message =>
      ok (mock_record "Mock data - Failed to start Python simulation" None)
  end.

Definition GET_mock (env : Env) (run : Run) : option (Response (json R)) :=
  if isServerless env then
    Some (ok (mock_record
                "Mock data - Python backend not available in serverless environment"
                None))
  else
    match run with
    | Spawned events => option_map settle_mock (await events)
    | Throws error =>
        Some (ok (mock_record "Mock data - Internal server error"
                              (Some (thrown_message error))))
    end.

(** The failure paths of the route: the process closes with a code other
    than [0], its output does not parse, it does not start, or an exception
    reaches [catch]. *)
Definition failure (s : Settlement) : bool :=
  match s with
  | Close code output errorOutput =>
      if nonzero code then true
      else match JSON_parse output with
           | Some _ => false
           | None => true
           end
  | Error _ => true
  end.

Definition failure_path (run : Run) : bool :=
  match run with
  | Spawned events =>
      match await events with
      | Some s => failure s
      | None => false
      end
  | Throws _ => true
  end.

End Routes.

(** A structured failure: a JSON response with status 500 whose body is a
    record with an [error] field holding one of the four messages of the
    route, and no other field than [details]. *)
Definition error_messages : list string :=
  [ "Simulation failed";
    "Failed to parse simulation results";
    "Failed to start simulation";
    "Internal server error" ].

Definition structured_failure (response : Response (json R)) : Prop :=
  status response = 500%Z
  /\ headers response = [("Content-Type", "application/json")]
  /\ is_object (body response) = true
  /\ (exists message,
         get_field "error" (body response) = Some (JStr message)
         /\ In message error_messages)
  /\ (forall k, In k (keys (body response)) -> k = "error" \/ k = "details").

(** ** The spiral ratio of the specification *)

(** [r(t) = phi_target + eps * sin(2 pi w t + theta)], in the words of the
    specification. *)
Definition spec_spiral_ratio (phi_target eps w theta time : R) : R :=
  phi_target + eps * sin (2 * PI * w * time + theta).

(** ** The trace invariant *)

(** [n] is the ceiling of [x]. *)
Definition is_ceil (x : R) (n : Z) : Prop := IZR n - 1 < x <= IZR n.

End Sim.

(* ================================================================= *)
(** * The text the listeners gather *)

Module Chunks.
Import Http.

(** The chunks of one stream, in the order they were written. *)
Definition stream (out : bool) (chunks : list (bool * string)) : list string :=
  map snd (filter (fun c : bool * string => Bool.eqb (fst c) out) chunks).

(** Strings put end to end. *)
Definition join (parts : list string) : string :=
  fold_right String.append EmptyString parts.

End Chunks.

(* ================================================================= *)
(** * The two verdicts in whole numbers *)

Module Rules.
Import Validation.

Definition is_pass (s : OverallStatus) : bool :=
  match s with
  | OverallPass => true
  | OverallFail => false
  end.

(** [(passed + partial * 0.5) / total >= 0.8] without fractions. *)
Definition reaches_threshold (ls : list ValidationLayer) : bool :=
  (8 * List.length ls
   <=? 10 * count_status Pass ls + 5 * count_status Partial ls)%nat.

End Rules.

(* ================================================================= *)
(** * The page that calls the routes ([+page.svelte], lines 7-44) *)

Module Page.
Import Json Http.

(** What [await fetch(url)] gives: the request is rejected, or it is
    fulfilled with the response of the route. *)
Inductive Fetched (B : Type) : Type :=
| Rejected
| Fulfilled (response : Response B).

Arguments Rejected {B}.

(** [response.ok]: a status from 200 to 299. *)
Definition response_ok {B : Type} (response : Response B) : bool :=
  (200 <=? status response)%Z && (status response <=? 299)%Z.

(** [showDetails], an object with the names of sections as keys. *)
Definition Details : Type := list (string * bool).

Fixpoint lookup (k : string) (o : Details) : option bool :=
  match o with
  | [] => None
  | (k', v) :: rest => if String.eqb k k' then Some v else lookup k rest
  end.

(** [o[k] = v], writing an own property: a key the object has keeps its
    place, a new one comes last (the names of sections are no array
    indices, which an engine lists first). *)
Fixpoint store (k : string) (v : bool) (o : Details) : Details :=
  match o with
  | [] => [(k, v)]
  | (k', v') :: rest =>
      if String.eqb k k' then (k, v) :: rest else (k', v') :: store k v rest
  end.

(** [o[k]] as a condition.  A key the object does not have itself is
    looked up in [Object.prototype]: [inherited k] tells whether [k] names
    one of its properties (['constructor'], ['toString'], ['__proto__'],
    ...), which are all truthy; otherwise the value is [undefined], which
    counts as [false]. *)
Definition shown (inherited : string -> bool) (o : Details) (k : string)
  : bool :=
  match lookup k o with
  | Some v => v
  | None => inherited k
  end.

(** [o[k] = v] for a boolean [v]: an own property is written, except for
    ['__proto__'], where the assignment goes to the inherited setter, which
    ignores a value that is neither an object nor [null]. *)
Definition assign (k : string) (v : bool) (o : Details) : Details :=
  if String.eqb k "__proto__" then o else store k v o.

(** The variables of the script. *)
Record State : Type := mkState {
  currentTab : string;
  validationStatus : option (json Q);
  simulationResults : option (json R);
  isLoading : bool;
  showDetails : Details
}.

Definition initial : State := mkState "mathematics" None None false [].

(** [loadValidationStatus]: [outcome] is what [fetch('/validation-status')]
    gives, [None] when the route never answers (the function then stays at
    its [await], after [isLoading = true]).  [response.json()] is the JSON
    the route serialised. *)
Definition loadValidationStatus (st : State)
    (outcome : option (Fetched Validation.Body)) : State :=
  let loading :=
    mkState (currentTab st) (validationStatus st) (simulationResults st)
            true (showDetails st) in
  match outcome with
  | None => loading
  | Some Rejected =>
      mkState (currentTab st) (validationStatus st) (simulationResults st)
              false (showDetails st)
  | Some (Fulfilled response) =>
      if response_ok response then
        mkState (currentTab st)
                (Some (Validation.stringify (body response)))
                (simulationResults st) false (showDetails st)
      else
        mkState (currentTab st) (validationStatus st) (simulationResults st)
                false (showDetails st)
  end.

(** [loadSimulationResults], the same with [fetch('/sim.json')]. *)
Definition loadSimulationResults (st : State)
    (outcome : option (Fetched (json R))) : State :=
  let loading :=
    mkState (currentTab st) (validationStatus st) (simulationResults st)
            true (showDetails st) in
  match outcome with
  | None => loading
  | Some Rejected =>
      mkState (currentTab st) (validationStatus st) (simulationResults st)
              false (showDetails st)
  | Some (Fulfilled response) =>
      if response_ok response then
        mkState (currentTab st) (validationStatus st)
                (Some (body response)) false (showDetails st)
      else
        mkState (currentTab st) (validationStatus st) (simulationResults st)
                false (showDetails st)
  end.

(** A request that reaches the route is fulfilled with its answer. *)
Definition fetched {B : Type} (answer : option (Response B))
  : option (Fetched B) :=
  option_map (@Fulfilled B) answer.

(** [toggleDetails(section)]: [showDetails[section] = !showDetails[section]],
    then a copy of the object. *)
Definition toggleDetails (inherited : string -> bool) (st : State)
    (section : string) : State :=
  mkState (currentTab st) (validationStatus st) (simulationResults st)
          (isLoading st)
          (assign section (negb (shown inherited (showDetails st) section))
                  (showDetails st)).

(** [Math.round]: the nearest integer, a half going up; on exact numbers
    (the two scores the routes return, 0 and 0.7, give the same percentage
    in binary64). *)
Definition Math_round (x : Q) : Z := Qfloor (x + (1 # 2))%Q.

(** The headline of the validation tab (lines 660-672):
    ['PAPER VALIDATED'], or ['VALIDATION FAILED (n% complete)'] with
    [n = Math.round(overall_score * 100)], [None] when the score is not a
    number. *)
Inductive Headline : Type :=
| PaperValidated
| ValidationFailed (percent : option Z).

Definition percent_complete (report : json Q) : option Z :=
  match get_field "overall_score" report with
  | Some (JNum score) => Some (Math_round (score * 100)%Q)
  | _ => None
  end.

Definition headline (report : json Q) : Headline :=
  match get_field "overall_status" report with
  | Some (JStr status) =>
      if String.eqb status "pass" then PaperValidated
      else ValidationFailed (percent_complete report)
  | _ => ValidationFailed (percent_complete report)
  end.

End Page.

(* ================================================================= *)
(** * Properties of the process listeners *)

Module HttpFacts.
Import Http.

Lemma settled_stable events c s :
  settled c = Some s -> settled (fold_left listen events c) = Some s.
Proof.
  revert c. induction events as [| ev events IH]; intros c Hc; [exact Hc |].
  simpl. apply IH.
  destruct ev; simpl; try exact Hc; unfold resolve; now rewrite Hc.
Qed.

Lemma listen_data chunks o e st :
  fold_left listen (data_events chunks) (mkChild o e st)
  = mkChild (gather true chunks o) (gather false chunks e) st.
Proof.
  revert o e. induction chunks as [| [[|] data] chunks IH]; intros o e; simpl;
    [reflexivity | apply IH | apply IH].
Qed.

(** The text gathered before ['close'] is what the ['close'] listener sees,
    and events after it change nothing. *)
Lemma await_closes chunks code rest :
  await (data_events chunks ++ CloseEvent code :: rest)
  = Some (Close code (gathered true chunks) (gathered false chunks)).
Proof.
  unfold await, spawn. rewrite fold_left_app, listen_data. simpl.
  now apply settled_stable.
Qed.

Lemma await_errors chunks message rest :
  await (data_events chunks ++ ErrorEvent message :: rest)
  = Some (Error message).
Proof.
  unfold await, spawn. rewrite fold_left_app, listen_data. simpl.
  now apply settled_stable.
Qed.

Lemma settled_iff events c :
  settled (fold_left listen events c) <> None
  <-> settled c <> None \/ settles events = true.
Proof.
  revert c. induction events as [| ev events IH]; intros c; simpl.
  - intuition discriminate.
  - rewrite IH. unfold settles. simpl.
    destruct ev; simpl; unfold resolve;
      destruct (settled c) eqn:Hc; simpl; rewrite ?Hc;
      intuition (try discriminate; try congruence).
Qed.

(** The promise is resolved exactly when the process emits ['close'] or
    ['error']. *)
Lemma await_settles events : await events <> None <-> settles events = true.
Proof.
  unfold await. rewrite settled_iff. simpl. intuition congruence.
Qed.

End HttpFacts.

(* ================================================================= *)
(** * Properties of the validation-status route *)

Module ValidationFacts.
Import Json Http Validation HttpFacts.

Local Open Scope Q_scope.

(** ** The reports that can be returned *)

Lemma pipeline_report run now v :
  report (Pipeline.GET run now) = Some v ->
  v = closeOverall localLayers now.
Proof.
  destruct run as [e | events]; simpl; [discriminate |].
  destruct (await events) as [[code out err | msg] |]; simpl;
    intros H; try discriminate H.
  now injection H as <-.
Qed.

Lemma with_mock_report env run now v :
  report (WithMock.GET env run now) = Some v ->
  v = closeOverall localLayers now
  \/ v = WithMock.generateMockValidationStatus now.
Proof.
  unfold WithMock.GET.
  destruct (isServerless env); simpl.
  - intros H. injection H as <-. now right.
  - destruct run as [e | events]; simpl.
    + intros H. injection H as <-. now right.
    + destruct (await events) as [[code out err | msg] |]; simpl;
        intros H; try discriminate H; injection H as <-; auto.
Qed.

(** A returned report is the report of the ['close'] handler or the mock
    report, at some reading of the clock. *)
Lemma produced_inv v :
  produced v ->
  exists now,
    v = closeOverall localLayers now
    \/ v = WithMock.generateMockValidationStatus now.
Proof.
  intros [run now v' H | env run now v' H]; exists now.
  - left. now apply pipeline_report with run.
  - now apply with_mock_report with env run.
Qed.

(** Both versions answer every run that completes; the version with the
    mock answers in a serverless environment without spawning anything. *)
Lemma pipeline_answers run now :
  Pipeline.GET run now <> None <-> completes run = true.
Proof.
  destruct run as [e | events]; simpl; [intuition discriminate |].
  rewrite <- await_settles.
  destruct (await events); simpl; intuition discriminate.
Qed.

Lemma with_mock_answers env run now :
  WithMock.GET env run now <> None
  <-> isServerless env = true \/ completes run = true.
Proof.
  unfold WithMock.GET. destruct (isServerless env).
  - intuition discriminate.
  - destruct run as [e | events]; simpl; [intuition discriminate |].
    rewrite <- await_settles.
    destruct (await events); simpl; intuition discriminate.
Qed.

(** When the process closes, both versions answer with the report of the
    ['close'] handler, whatever was written and whatever the exit code. *)
Lemma close_report chunks code rest now :
  report (Pipeline.GET (closes chunks code rest) now)
  = Some (closeOverall localLayers now)
  /\ report (WithMock.GET env_local (closes chunks code rest) now)
     = Some (closeOverall localLayers now).
Proof.
  unfold Pipeline.GET, WithMock.GET, closes.
  change (isServerless env_local) with false. cbv iota.
  rewrite await_closes. split; reflexivity.
Qed.

Lemma produced_close now : produced (closeOverall localLayers now).
Proof.
  apply produced_pipeline with (run := closes [] (Some 0%Z) []) (now := now).
  reflexivity.
Qed.

Lemma produced_mock now :
  produced (WithMock.generateMockValidationStatus now).
Proof.
  apply produced_with_mock
    with (env := env_vercel) (run := Throws OtherValue) (now := now).
  reflexivity.
Qed.

(** Case analysis on a returned report. *)
Ltac by_report H :=
  let now := fresh "now" in
  apply produced_inv in H; destruct H as [now [-> | ->]].

(** ** Counting layers *)

Lemma count_pass_all ls :
  count_status Pass ls = List.length ls <-> all_pass ls = true.
Proof.
  unfold count_status, all_pass.
  induction ls as [| l ls IH]; simpl; [tauto |].
  destruct (status_eqb (status l) Pass); simpl.
  - rewrite <- IH. lia.
  - pose proof (filter_length_le (fun l => status_eqb (status l) Pass) ls).
    split; [lia | discriminate].
Qed.

Lemma num_pos n : (0 < n)%nat -> ~ num n == 0.
Proof.
  intros Hn E. unfold num in E.
  change 0 with (inject_Z 0) in E.
  apply (proj1 (inject_Z_injective _ _)) in E. lia.
Qed.

Lemma num_ratio_one a b :
  (0 < b)%nat -> (num a / num b == 1 <-> a = b).
Proof.
  intros Hb. split.
  - intros E.
    assert (E' : num a == num b).
    { transitivity (num b * (num a / num b)).
      - symmetry. apply Qmult_div_r, num_pos, Hb.
      - rewrite E. ring. }
    apply (proj1 (inject_Z_injective _ _)) in E'. lia.
  - intros ->. apply Qmult_inv_r, num_pos, Hb.
Qed.

(** X14. The rule of the ['close'] handler, on any non-empty array of
    layers: the score is 1, and the verdict ['pass'], exactly when every
    layer passes. *)
Lemma closeOverall_pass_iff ls now :
  ls <> [] ->
  (overall_status (closeOverall ls now) = OverallPass <-> all_pass ls = true).
Proof.
  intros Hne.
  assert (Hlen : (0 < List.length ls)%nat)
    by (destruct ls; [congruence | simpl; lia]).
  rewrite <- count_pass_all, <- (num_ratio_one _ Hlen).
  unfold closeOverall; simpl overall_status.
  destruct (Qeq_bool _ _) eqn:E.
  - apply Qeq_bool_iff in E. split; [intros _ | reflexivity].
    now rewrite E.
  - split; [discriminate | intros H].
    apply Qeq_bool_neq in E. contradict E. now rewrite H.
Qed.

(** The score of the mock computation is the weighted fraction of the
    specification, on any array of layers. *)
Lemma weights_sum ls :
  fold_right (fun l acc => layer_weight (status l) + acc) 0 ls
  == num (count_status Pass ls) + num (count_status Partial ls) * 0.5.
Proof.
  unfold count_status, num.
  induction ls as [| l ls IH]; [reflexivity |].
  simpl fold_right. rewrite IH. simpl filter.
  destruct (status l); simpl status_eqb; cbv iota; simpl List.length;
    rewrite ?Nat2Z.inj_succ, <- ?Z.add_1_r, ?inject_Z_plus;
    simpl layer_weight; ring.
Qed.

Lemma mockOverall_score ls now :
  overall_score (mockOverall ls now) == spec_weighted_fraction ls.
Proof.
  unfold mockOverall, spec_weighted_fraction; simpl.
  now rewrite weights_sum.
Qed.

(** The rule of the mock computation is a threshold on that score: four
    passing layers out of five reach it. *)
Example mockOverall_threshold now :
  let ls := restatus [Pass; Pass; Pass; Pass; Fail] mockLayers in
  overall_status (mockOverall ls now) = OverallPass /\ all_pass ls = false.
Proof. split; reflexivity. Qed.

(** ** Exact numbers against binary64

    On arrays of at most five layers, whatever their statuses, both rules
    give the same verdict on exact rationals and on doubles; the empty
    array, where the scores differ ([0] and [NaN]), included. *)

Import Binary64.

Lemma closeOverall_b64_status ss now :
  overall_status (closeOverall (restatus ss mockLayers) now)
  = snd (closeOverall_b64 (restatus ss mockLayers)).
Proof.
  destruct ss as [| [] [| [] [| [] [| [] [| [] ss]]]]];
    vm_compute; reflexivity.
Qed.

Lemma mockOverall_b64_status ss now :
  overall_status (mockOverall (restatus ss mockLayers) now)
  = snd (mockOverall_b64 (restatus ss mockLayers)).
Proof.
  destruct ss as [| [] [| [] [| [] [| [] [| [] ss]]]]];
    vm_compute; reflexivity.
Qed.

(** The two literals in binary64: the scores JavaScript prints as [0] and
    [0.7], and ['fail'] twice. *)
Example close_report_b64 :
  closeOverall_b64 localLayers = (PrimFloat.zero, OverallFail).
Proof. vm_compute. reflexivity. Qed.

Example mock_report_b64 :
  mockOverall_b64 mockLayers
  = (PrimFloat.div (b64 7) (b64 10), OverallFail).
Proof. vm_compute. reflexivity. Qed.

Example mock_report_score now :
  overall_score (WithMock.generateMockValidationStatus now) == 0.7.
Proof. reflexivity. Qed.

Example close_report_score now :
  overall_score (closeOverall localLayers now) == 0.
Proof. reflexivity. Qed.

(** ** The claims on the report *)

(** C1. On every report the route returns, the overall status is ['pass']
    only if the report has five layers and each of them has status
    ['pass']; whenever some layer does not pass, the overall status is
    ['fail']. *)
Theorem overall_pass_only_if_all_layers_pass v :
  produced v ->
  (overall_status v = OverallPass ->
   List.length (layers v) = 5%nat /\ all_pass (layers v) = true)
  /\ (all_pass (layers v) = false -> overall_status v = OverallFail).
Proof.
  intros H. by_report H; split; intros E; try reflexivity;
    vm_compute in E; discriminate E.
Qed.

Lemma overall_pass_only_if_all_layers_pass_witness :
  produced (closeOverall localLayers "2025-01-01T00:00:00.000Z")
  /\ overall_status (closeOverall localLayers "2025-01-01T00:00:00.000Z")
     = OverallFail.
Proof.
  split.
  - apply produced_pipeline
      with (run := closes [(false, "1 failed")] (Some 1%Z) [])
           (now := "2025-01-01T00:00:00.000Z").
    reflexivity.
  - apply (overall_pass_only_if_all_layers_pass
             (v := closeOverall localLayers "2025-01-01T00:00:00.000Z")).
    + apply produced_pipeline
        with (run := closes [(false, "1 failed")] (Some 1%Z) [])
             (now := "2025-01-01T00:00:00.000Z").
      reflexivity.
    + reflexivity.
Defined.

(** C2, at the failing execution.  When the validation process closes,
    with any output and any exit code, both versions of the route return a
    report with two partial layers whose score is 0, while the weighted
    fraction of its layers is 0.2: the ['close'] handler counts only the
    passing layers. *)
Theorem close_score_is_not_the_weighted_fraction chunks code rest now :
  exists v,
    report (Pipeline.GET (closes chunks code rest) now) = Some v
    /\ report (WithMock.GET env_local (closes chunks code rest) now) = Some v
    /\ count_status Partial (layers v) = 2%nat
    /\ overall_score v == 0
    /\ spec_weighted_fraction (layers v) == 0.2
    /\ ~ overall_score v == spec_weighted_fraction (layers v).
Proof.
  exists (closeOverall localLayers now).
  destruct (close_report chunks code rest now) as [Hp Hm].
  repeat split; try assumption; try reflexivity.
  intros E. vm_compute in E. discriminate E.
Qed.

(** C5, at the failing execution.  Whatever the validation process writes
    and whatever its exit code, [0] included, the report of the ['close']
    handler carries a layer 1 with status ['fail'], whose own requirement
    reads "pytest -q returns 0". *)
Theorem layer1_status_ignores_exit_code chunks code rest now :
  exists v l1,
    report (Pipeline.GET (closes chunks code rest) now) = Some v
    /\ report (WithMock.GET env_local (closes chunks code rest) now) = Some v
    /\ layer 1 v = Some l1
    /\ requirement l1 = "pytest -q returns 0"
    /\ status l1 = Fail.
Proof.
  exists (closeOverall localLayers now).
  destruct (close_report chunks code rest now) as [Hp Hm].
  eexists. repeat split; try assumption.
Qed.

(** Layer 5 of the two reports. *)
Lemma close_layer5 now :
  exists l5,
    layer 5 (closeOverall localLayers now) = Some l5
    /\ status l5 = NotImplemented
    /\ get_field "reference_images_exist" (details l5) = Some (JBool false).
Proof. eexists. repeat split. Qed.

Lemma mock_layer5 now :
  exists l5,
    layer 5 (WithMock.generateMockValidationStatus now) = Some l5
    /\ status l5 = Partial
    /\ get_field "reference_images_exist" (details l5) = Some (JBool true).
Proof. eexists. repeat split. Qed.

(** C7, as stated, fails.  With the reference images absent from the disk,
    the route of [part_000] in a serverless environment returns a report
    whose layer 5 is ['partial'], with [reference_images_exist: true], and
    not ['not_implemented']. *)
Lemma layer5_partial_without_reference_images :
  exists v l5,
    reference_images_present (mkDisk false) = false
    /\ report (serve_with_mock (mkDisk false) env_vercel (Spawned [])
                 "2025-01-01T00:00:00.000Z") = Some v
    /\ layer 5 v = Some l5
    /\ status l5 = Partial
    /\ status l5 <> NotImplemented
    /\ get_field "reference_images_exist" (details l5) = Some (JBool true).
Proof.
  eexists. eexists. repeat split. discriminate.
Qed.

(** C7, amended.  Whether the reference images are on the disk or not,
    (1) every report the route returns has its five layers, numbered 1 to
    5, and is the report of the ['close'] handler, whose layer 5 is
    ['not_implemented'] with [reference_images_exist: false], or the mock
    report, whose layer 5 is ['partial'] with [reference_images_exist:
    true]; (2) whenever the validation process closes, both versions return
    the former; (3) in a serverless environment, and when the process does
    not start or an exception is caught, the version of [part_000] returns
    the latter. *)
Theorem layer5_status_is_fixed_per_path disk :
  (forall env run now v,
      report (serve_pipeline disk run now) = Some v
      \/ report (serve_with_mock disk env run now) = Some v ->
      map id (layers v) = [1; 2; 3; 4; 5]%Z
      /\ exists l5,
          layer 5 v = Some l5
          /\ ((v = closeOverall localLayers now
               /\ status l5 = NotImplemented
               /\ get_field "reference_images_exist" (details l5)
                  = Some (JBool false))
              \/ (v = WithMock.generateMockValidationStatus now
                  /\ status l5 = Partial
                  /\ get_field "reference_images_exist" (details l5)
                     = Some (JBool true))))
  /\ (forall chunks code rest now,
         report (serve_pipeline disk (closes chunks code rest) now)
         = Some (closeOverall localLayers now)
         /\ report (serve_with_mock disk env_local (closes chunks code rest)
                      now)
            = Some (closeOverall localLayers now))
  /\ (forall env run chunks message rest error now,
         (isServerless env = true ->
          report (serve_with_mock disk env run now)
          = Some (WithMock.generateMockValidationStatus now))
         /\ report (serve_with_mock disk env_local
                      (Spawned (data_events chunks
                                ++ ErrorEvent message :: rest)) now)
            = Some (WithMock.generateMockValidationStatus now)
         /\ report (serve_with_mock disk env_local (Throws error) now)
            = Some (WithMock.generateMockValidationStatus now)).
Proof.
  unfold serve_pipeline, serve_with_mock.
  split; [| split].
  - intros env run now v Hv.
    assert (Hcases : v = closeOverall localLayers now
                     \/ v = WithMock.generateMockValidationStatus now).
    { destruct Hv as [Hv | Hv].
      - left. now apply pipeline_report with run.
      - now apply with_mock_report with env run. }
    destruct Hcases as [-> | ->]; (split; [reflexivity |]).
    + destruct (close_layer5 now) as [l5 [Hl [Hs Hf]]].
      exists l5. split; [exact Hl |]. left. auto.
    + destruct (mock_layer5 now) as [l5 [Hl [Hs Hf]]].
      exists l5. split; [exact Hl |]. right. auto.
  - intros chunks code rest now. apply close_report.
  - intros env run chunks message rest error now. split; [| split].
    + intros Henv. unfold WithMock.GET. now rewrite Henv.
    + unfold WithMock.GET. change (isServerless env_local) with false.
      cbv iota. now rewrite await_errors.
    + reflexivity.
Qed.

Lemma layer5_status_is_fixed_per_path_witness :
  map id (layers (closeOverall localLayers "2025-01-01T00:00:00.000Z"))
  = [1; 2; 3; 4; 5]%Z
  /\ exists l5,
      layer 5 (closeOverall localLayers "2025-01-01T00:00:00.000Z") = Some l5
      /\ ((closeOverall localLayers "2025-01-01T00:00:00.000Z"
           = closeOverall localLayers "2025-01-01T00:00:00.000Z"
           /\ status l5 = NotImplemented
           /\ get_field "reference_images_exist" (details l5)
              = Some (JBool false))
          \/ (closeOverall localLayers "2025-01-01T00:00:00.000Z"
              = WithMock.generateMockValidationStatus
                  "2025-01-01T00:00:00.000Z"
              /\ status l5 = Partial
              /\ get_field "reference_images_exist" (details l5)
                 = Some (JBool true))).
Proof.
  apply (proj1 (layer5_status_is_fixed_per_path (mkDisk true))
           env_local (closes [] (Some 0%Z) [])
           "2025-01-01T00:00:00.000Z"
           (closeOverall localLayers "2025-01-01T00:00:00.000Z")).
  left. reflexivity.
Defined.

(** The six fields of a serialised layer. *)
Lemma layer_json_fields l k :
  In k ["id"; "name"; "status"; "details"; "description"; "requirement"] ->
  has_field k (ValidationLayer_to_json l) = true.
Proof.
  simpl. intros [<- | [<- | [<- | [<- | [<- | [<- | []]]]]]]; reflexivity.
Qed.

(** C8. Every report the route returns serialises to a record with the
    fields [overall_status], [overall_score], [layers] and [last_updated];
    [layers] is an array of exactly five records, each with the fields
    [id], [name], [status], [details], [description] and [requirement], and
    their ids are 1, 2, 3, 4, 5 in this order. *)
Theorem report_has_five_ordered_layers v :
  produced v ->
  (forall k,
      In k ["overall_status"; "overall_score"; "layers"; "last_updated"] ->
      has_field k (stringify (Report v)) = true)
  /\ (exists items,
         get_field "layers" (stringify (Report v)) = Some (JArr items)
         /\ List.length items = 5%nat
         /\ Forall
              (fun item =>
                 forall k,
                   In k ["id"; "name"; "status"; "details"; "description";
                         "requirement"] ->
                   has_field k item = true)
              items
         /\ map (get_field "id") items
            = map (fun n => Some (JNum (inject_Z n))) [1; 2; 3; 4; 5]%Z)
  /\ map id (layers v) = [1; 2; 3; 4; 5]%Z.
Proof.
  intros H. split; [| split].
  - simpl. intros k [<- | [<- | [<- | [<- | []]]]]; reflexivity.
  - exists (map ValidationLayer_to_json (layers v)).
    split; [reflexivity |].
    split; [by_report H; reflexivity |].
    split.
    + apply Forall_forall. intros item Hin k Hk.
      apply in_map_iff in Hin. destruct Hin as [l [<- _]].
      now apply layer_json_fields.
    + by_report H; reflexivity.
  - by_report H; reflexivity.
Qed.

Lemma report_has_five_ordered_layers_witness :
  produced (WithMock.generateMockValidationStatus "2025-01-01T00:00:00.000Z")
  /\ map id (layers (WithMock.generateMockValidationStatus
                       "2025-01-01T00:00:00.000Z"))
     = [1; 2; 3; 4; 5]%Z.
Proof.
  split.
  - apply produced_with_mock
      with (env := env_vercel) (run := Throws OtherValue)
           (now := "2025-01-01T00:00:00.000Z").
    reflexivity.
  - apply (@report_has_five_ordered_layers
             (WithMock.generateMockValidationStatus
                "2025-01-01T00:00:00.000Z")).
    apply produced_with_mock
      with (env := env_vercel) (run := Throws OtherValue)
           (now := "2025-01-01T00:00:00.000Z").
    reflexivity.
Defined.

(** C10. Every report the route returns, in either version, on the mock
    path as on the path of the local pipeline and for every exit code of
    the validation process, has overall status ['fail']. *)
Theorem endpoint_never_reports_pass v :
  produced v -> overall_status v = OverallFail.
Proof.
  intros H. by_report H; reflexivity.
Qed.

Lemma endpoint_never_reports_pass_witness :
  exists v,
    report (WithMock.GET env_local
              (closes [(true, "ok")] (Some 0%Z) [])
              "2025-01-01T00:00:00.000Z") = Some v
    /\ overall_status v = OverallFail.
Proof.
  eexists. split; [reflexivity |].
  apply endpoint_never_reports_pass.
  apply produced_with_mock
    with (env := env_local)
         (run := closes [(true, "ok")] (Some 0%Z) [])
         (now := "2025-01-01T00:00:00.000Z").
  reflexivity.
Defined.

End ValidationFacts.

(* ================================================================= *)
(** * Properties of the mock simulation series *)

Module SimFacts.
Import Json Http Sim HttpFacts.

Local Open Scope R_scope.

(** ** The time grid [i * 0.2] *)

Section Grid.

Variable dt : R.
Hypothesis dt_pos : 0 < dt.

Let grid (start len : nat) : list R := map (fun i => INR i * dt) (seq start len).

Lemma grid_last start len :
  last (grid start (S len)) 0 = INR (start + len) * dt.
Proof.
  unfold grid. rewrite seq_S, map_app. simpl. apply last_last.
Qed.

Lemma grid_increasing start len : StronglySorted Rlt (grid start len).
Proof.
  unfold grid. revert start.
  induction len as [| len IH]; intros start; simpl; constructor.
  - apply IH.
  - apply Forall_forall. intros x Hx.
    apply in_map_iff in Hx. destruct Hx as [j [<- Hj]].
    apply in_seq in Hj.
    apply Rmult_lt_compat_r; [exact dt_pos |].
    apply lt_INR. lia.
Qed.

(** A grid of [len + 1] samples from 0 spans [[0, T]] with [T = len * dt],
    and [len] is the ceiling of [T / dt]. *)
Lemma grid_ceil len :
  is_ceil (last (grid 0 (S len)) 0 / dt) (Z.of_nat len).
Proof.
  rewrite grid_last. simpl Nat.add.
  replace (INR len * dt / dt) with (INR len) by (field; lra).
  rewrite INR_IZR_INZ. unfold is_ceil. lra.
Qed.

End Grid.

Lemma times_grid : times = map (fun i => INR i * 0.2) (seq 0 (S 99)).
Proof. reflexivity. Qed.

(** In binary64 too the hundred products [i * 0.2] increase strictly. *)
Example times_b64_increasing :
  List.length Binary64.times_b64 = 100%nat
  /\ Binary64.increasing_b64 Binary64.times_b64 = true.
Proof. split; vm_compute; reflexivity. Qed.

(** ** The generator *)

Lemma generateMockSimData_with_S_of :
  generateMockSimData_with S_of = generateMockSimData.
Proof. reflexivity. Qed.

Lemma Forall2_map_pointwise (A B : Type) (f g : A -> B) (xs : list A) :
  (forall x, g x = f x) -> Forall2 (fun x y => y = f x) xs (map g xs).
Proof.
  intros Hfg. induction xs as [| x xs IH]; simpl; constructor; auto.
Qed.

Lemma r_of_spec time : r_of time = spec_spiral_ratio 1.618 0.05 0.1 0 time.
Proof.
  unfold r_of, spec_spiral_ratio, phi, epsilon, omega.
  now rewrite Rplus_0_r.
Qed.

Lemma r_of_bounded time : Rabs (r_of time - phi) <= epsilon.
Proof.
  unfold r_of, phi, epsilon.
  pose proof (SIN_bound (2 * PI * omega * time)) as Hs.
  apply Rabs_le. lra.
Qed.

(** C3. Every sample of [r] is
    [phi_target + eps * sin (2 pi w t + theta)] at the sample time of the
    same index, with [phi_target = 1.618], [eps = 0.05], [w = 0.1] and
    [theta = 0]; and the series [r] (with its times) is the same whatever
    function produces the samples of the global signal [S]. *)
Theorem spiral_ratio_driver :
  Forall2 (fun time rv => rv = spec_spiral_ratio 1.618 0.05 0.1 0 time)
          (sim_t generateMockSimData) (sim_r generateMockSimData)
  /\ forall signal : R -> R,
       sim_r (generateMockSimData_with signal) = sim_r generateMockSimData
       /\ sim_t (generateMockSimData_with signal) = sim_t generateMockSimData
       /\ sim_S (generateMockSimData_with signal)
          = map signal (sim_t generateMockSimData).
Proof.
  split.
  - unfold generateMockSimData; cbv zeta; cbn [sim_t sim_r].
    apply Forall2_map_pointwise, r_of_spec.
  - intros signal. repeat split.
Qed.

(** C4. Every sample of the series [r] lies within [eps = 0.05] of
    [phi_target = 1.618]. *)
Theorem spiral_ratio_bounded :
  Forall (fun rv => Rabs (rv - 1.618) <= 0.05) (sim_r generateMockSimData).
Proof.
  unfold generateMockSimData; cbv zeta; cbn [sim_r].
  apply Forall_forall. intros rv Hin.
  apply in_map_iff in Hin. destruct Hin as [time [<- _]].
  exact (r_of_bounded time).
Qed.

Lemma times_count : List.length times = 100%nat.
Proof. unfold times. now rewrite length_map, length_seq. Qed.

Lemma times_last : last times 0 = 19.8.
Proof.
  rewrite times_grid, (grid_last 0.2 0 99), INR_IZR_INZ. simpl. lra.
Qed.

(** C9, as stated, fails for a duration given beforehand.  The trace has
    100 samples with step [dt = 0.2]: for the duration [T = 20] (a hundred
    steps, the duration of the runs of the study) the ceiling of [T / dt]
    is 100, and the trace has not [100 + 1] samples. *)
Lemma mock_trace_one_sample_short :
  is_ceil (20 / 0.2) 100
  /\ ~ (exists n : Z,
           is_ceil (20 / 0.2) n
           /\ Z.of_nat (List.length (sim_t generateMockSimData)) = (n + 1)%Z).
Proof.
  split.
  - unfold is_ceil. lra.
  - intros [n [[Hlo Hhi] Hlen]].
    unfold generateMockSimData in Hlen; cbv zeta in Hlen; cbn [sim_t] in Hlen.
    rewrite times_count in Hlen.
    assert (n = 99%Z) by lia. subst n. lra.
Qed.

(** C9, amended.  The generated trace has 100 samples, [t_i = 0.2 * i] for
    [i] from 0 to 99, the last one at 19.8; its times are strictly
    increasing; the series [t], [S], [C] and [r] have the same length; and
    with [dt = 0.2] its length is [ceil (T / dt) + 1] exactly for the
    durations [19.6 < T <= 19.8]. *)
Theorem mock_trace_grid :
  let d := generateMockSimData in
  List.length (sim_t d) = 100%nat
  /\ Forall2 (fun i time => time = INR i * 0.2) (seq 0 100) (sim_t d)
  /\ last (sim_t d) 0 = 19.8
  /\ StronglySorted Rlt (sim_t d)
  /\ List.length (sim_S d) = List.length (sim_t d)
  /\ List.length (sim_C d) = List.length (sim_t d)
  /\ List.length (sim_r d) = List.length (sim_t d)
  /\ (forall T : R,
         (exists n : Z,
             is_ceil (T / 0.2) n
             /\ Z.of_nat (List.length (sim_t d)) = (n + 1)%Z)
         <-> 19.6 < T <= 19.8).
Proof.
  unfold generateMockSimData; cbv zeta; cbn [sim_t sim_S sim_C sim_r].
  assert (Hdt : 0 < 0.2) by lra.
  split; [apply times_count |].
  split; [unfold times; now apply Forall2_map_pointwise |].
  split; [apply times_last |].
  split; [rewrite times_grid; exact (grid_increasing Hdt 0 (S 99)) |].
  split; [now rewrite !length_map |].
  split; [now rewrite !length_map |].
  split; [now rewrite !length_map |].
  intros T. rewrite times_count. split.
  - intros [n [[Hlo Hhi] Hlen]]. assert (n = 99%Z) by lia. subst n. lra.
  - intros HT. exists 99%Z. split; [unfold is_ceil; lra | reflexivity].
Qed.

(** ** The failure paths of the route *)

Lemma assoc_app (num : Type) k (fs ex : list (string * json num)) :
  assoc k (fs ++ ex)
  = match assoc k fs with
    | Some v => Some v
    | None => assoc k ex
    end.
Proof.
  induction fs as [| [k' v] fs IH]; simpl; [reflexivity |].
  now destruct (String.eqb k k').
Qed.

Lemma assoc_not_key (num : Type) k (fs : list (string * json num)) :
  ~ In k (map fst fs) -> assoc k fs = None.
Proof.
  induction fs as [| [k' v] fs IH]; simpl; [reflexivity |].
  intros Hk. destruct (String.eqb_spec k k') as [-> | _]; [| auto].
  exfalso. auto.
Qed.

(** The fields a fallback adds to the mock series are looked up in the
    added fields: the series has none of them. *)
Lemma mock_record_field k note error :
  ~ In k ["t"; "C"; "S"; "r"] ->
  get_field k (mock_record note error)
  = assoc k (("note", JStr note)
             :: match error with
                | Some e => [ ("error", JStr e) ]
                | None => []
                end).
Proof.
  intros Hk. unfold mock_record, SimData_to_json, spread, get_field.
  rewrite assoc_app, assoc_not_key; [reflexivity |].
  rewrite app_nil_r. exact Hk.
Qed.

Ltac not_a_series_key :=
  simpl; intros H;
  repeat (destruct H as [H | H]; [discriminate H |]); exact H.

Lemma error_record_structured message details :
  In message error_messages ->
  structured_failure (server_error (error_record message details)).
Proof.
  intros Hm. unfold structured_failure, error_record; simpl.
  repeat split; [now exists message |].
  destruct details; simpl; intuition.
Qed.

(** Each failing settlement of the promise is answered with a structured
    failure. *)
Lemma settle_strict_failure JSON_parse s :
  failure JSON_parse s = true ->
  structured_failure (settle_strict JSON_parse s).
Proof.
  destruct s as [code out err | msg]; simpl.
  - destruct (nonzero code).
    + intros _. apply error_record_structured. simpl; auto.
    + destruct (JSON_parse out); [discriminate |].
      intros _. apply error_record_structured. simpl; auto.
  - intros _. apply error_record_structured. simpl; auto.
Qed.

Lemma strict_answers JSON_parse run :
  GET_strict JSON_parse run <> None <-> completes run = true.
Proof.
  destruct run as [e | events]; simpl; [intuition discriminate |].
  rewrite <- await_settles.
  destruct (await events); simpl; intuition discriminate.
Qed.

(** On every failure path the route of [part_002] handles (the process
    exits with a code other than 0, its output does not parse, it does not
    start, or an exception is caught) the handler answers, the response is
    JSON with status 500, and its body is a record whose [error] field is
    one of four fixed messages and whose only other field, if any, is
    [details]: the text of stderr or the message of the exception stays
    inside that field. *)
Theorem failures_are_error_records JSON_parse run :
  failure_path JSON_parse run = true ->
  exists response,
    GET_strict JSON_parse run = Some response
    /\ structured_failure response.
Proof.
  destruct run as [e | events]; simpl.
  - intros _. eexists. split; [reflexivity |].
    apply error_record_structured. simpl; auto.
  - destruct (await events) as [s |]; simpl; [| discriminate].
    intros Hf. eexists. split; [reflexivity |].
    now apply settle_strict_failure.
Qed.

Lemma failures_are_error_records_witness :
  exists response,
    GET_strict (fun _ => None)
      (Spawned [ StderrData "Traceback (most recent call last):";
                 CloseEvent (Some 1%Z) ])
    = Some response
    /\ structured_failure response.
Proof.
  apply (@failures_are_error_records (fun _ => None)
           (Spawned [ StderrData "Traceback (most recent call last):";
                      CloseEvent (Some 1%Z) ])).
  reflexivity.
Defined.

(** C6, at the failing execution.  An exception thrown by [spawn] inside
    the executor of the promise is not caught: the promise of the handler
    of [part_002] is rejected with that exception and no response is
    built, while the same exception thrown before the promise is returned
    is answered with the record of the [catch] block. *)
Theorem executor_exception_escapes_catch JSON_parse error :
  outcome (GET_strict JSON_parse) (ExecutorThrows error) = Rejected error
  /\ (forall response,
         outcome (GET_strict JSON_parse) (ExecutorThrows error)
         <> Answered response)
  /\ outcome (GET_strict JSON_parse) (Runs (Throws error))
     = Answered (server_error
                   (error_record "Internal server error"
                                 (Some (thrown_message error)))).
Proof.
  split; [reflexivity |]. split; [discriminate | reflexivity].
Qed.

(** X9. The version of [part_001] answers the same failure paths with
    status 200 and the mock series under a [note]. *)
Lemma fallback_failures_carry_note JSON_parse run :
  failure_path JSON_parse run = true ->
  exists response note,
    GET_mock JSON_parse env_local run = Some response
    /\ status response = 200%Z
    /\ get_field "note" (body response) = Some (JStr note).
Proof.
  unfold GET_mock.
  change (isServerless env_local) with false. cbv iota.
  destruct run as [e | events]; cbn [failure_path].
  - intros _. eexists. eexists. split; [reflexivity |].
    split; [reflexivity |].
    cbn [body ok]. rewrite mock_record_field by not_a_series_key. reflexivity.
  - destruct (await events) as [[code out err | msg] |];
      cbn [failure option_map settle_mock]; [| | discriminate].
    + destruct (nonzero code).
      * intros _. eexists. eexists. split; [reflexivity |].
        split; [reflexivity |].
        cbn [body ok]. rewrite mock_record_field by not_a_series_key.
        reflexivity.
      * destruct (JSON_parse out); [discriminate |].
        intros _. eexists. eexists. split; [reflexivity |].
        split; [reflexivity |].
        cbn [body ok]. rewrite mock_record_field by not_a_series_key.
        reflexivity.
    + intros _. eexists. eexists. split; [reflexivity |].
      split; [reflexivity |].
      cbn [body ok]. rewrite mock_record_field by not_a_series_key.
      reflexivity.
Qed.

(** X10. Its answers to an output that does not parse and to a process
    that does not start have no [error] field. *)
Lemma fallback_without_error_field JSON_parse chunks message rest :
  JSON_parse (gathered true chunks) = None ->
  (exists response,
      GET_mock JSON_parse env_local
        (Spawned (data_events chunks ++ CloseEvent (Some 0%Z) :: rest))
      = Some response
      /\ get_field "error" (body response) = None)
  /\ (exists response,
         GET_mock JSON_parse env_local
           (Spawned (data_events chunks ++ ErrorEvent message :: rest))
         = Some response
         /\ get_field "error" (body response) = None).
Proof.
  intros Hparse. unfold GET_mock.
  change (isServerless env_local) with false. cbv iota.
  rewrite await_closes, await_errors. cbn [option_map settle_mock].
  simpl nonzero. cbv iota. rewrite Hparse.
  split; eexists; (split; [reflexivity |]); cbn [body ok];
    rewrite mock_record_field by not_a_series_key; reflexivity.
Qed.

End SimFacts.

(* ================================================================= *)
(** * Further properties of the process listeners *)

Module ListenerFacts.
Import Json Http Chunks HttpFacts.

Lemma append_assoc (a b c : string) :
  ((a ++ b) ++ c)%string = (a ++ (b ++ c))%string.
Proof. induction a as [| ch a IH]; simpl; [reflexivity | now rewrite IH]. Qed.

Lemma append_empty (a : string) : (a ++ EmptyString)%string = a.
Proof. induction a as [| ch a IH]; simpl; [reflexivity | now rewrite IH]. Qed.

Lemma gather_join out chunks acc :
  gather out chunks acc = (acc ++ join (stream out chunks))%string.
Proof.
  unfold gather, stream. revert acc.
  induction chunks as [| [o data] chunks IH]; intros acc; simpl.
  - now rewrite append_empty.
  - destruct (Bool.eqb o out); simpl; rewrite IH; [| reflexivity].
    apply append_assoc.
Qed.

Lemma gathered_join out chunks : gathered out chunks = join (stream out chunks).
Proof. unfold gathered. now rewrite gather_join. Qed.

(** X1. Only the first ['close'] or ['error'] counts: once the events of
    a process have settled the promise, whatever the process emits
    afterwards leaves the answer of each route as it is. *)
Theorem first_settlement_wins JSON_parse events more now :
  settles events = true ->
  await (events ++ more) = await events
  /\ Sim.GET_strict JSON_parse (Spawned (events ++ more))
     = Sim.GET_strict JSON_parse (Spawned events)
  /\ Sim.GET_mock JSON_parse env_local (Spawned (events ++ more))
     = Sim.GET_mock JSON_parse env_local (Spawned events)
  /\ Validation.Pipeline.GET (Spawned (events ++ more)) now
     = Validation.Pipeline.GET (Spawned events) now
  /\ Validation.WithMock.GET env_local (Spawned (events ++ more)) now
     = Validation.WithMock.GET env_local (Spawned events) now.
Proof.
  intros Hs. apply await_settles in Hs.
  assert (E : await (events ++ more) = await events).
  { destruct (await events) as [s |] eqn:Ha; [| congruence].
    unfold await in *. rewrite fold_left_app. now apply settled_stable. }
  unfold Sim.GET_strict, Sim.GET_mock, Validation.Pipeline.GET,
    Validation.WithMock.GET.
  rewrite E. repeat split.
Qed.

Lemma first_settlement_wins_witness :
  await ([ErrorEvent "spawn python3 ENOENT"] ++ [CloseEvent (Some (-2)%Z)])
  = Some (Error "spawn python3 ENOENT").
Proof.
  apply (proj1 (@first_settlement_wins (fun _ => None)
                  [ErrorEvent "spawn python3 ENOENT"]
                  [CloseEvent (Some (-2)%Z)] EmptyString eq_refl)).
Defined.

(** The ['close'] listener receives the chunks of stdout put end to end in
    the order they were written, and those of stderr likewise. *)
Lemma await_closes_streams chunks code rest :
  await (data_events chunks ++ CloseEvent code :: rest)
  = Some (Close code (join (stream true chunks)) (join (stream false chunks))).
Proof.
  rewrite await_closes. now rewrite !gathered_join.
Qed.

End ListenerFacts.

(* ================================================================= *)
(** * Further properties of the sim.json route *)

Module SimRouteFacts.
Import Json Http Chunks Sim HttpFacts SimFacts ListenerFacts.

Lemma mock_answers JSON_parse env run :
  GET_mock JSON_parse env run <> None
  <-> isServerless env = true \/ completes run = true.
Proof.
  unfold GET_mock. destruct (isServerless env).
  - intuition discriminate.
  - destruct run as [e | events]; simpl; [intuition discriminate |].
    rewrite <- await_settles.
    destruct (await events); simpl; intuition discriminate.
Qed.

(** X3. No route has a timeout: a handler that spawns the process answers
    exactly when an exception is caught or the process emits ['close'] or
    ['error']; the versions with mock data also answer, without looking at
    the process, in a serverless environment. *)
Theorem routes_answer_iff_settled JSON_parse env run now :
  (GET_strict JSON_parse run <> None <-> completes run = true)
  /\ (GET_mock JSON_parse env run <> None
      <-> isServerless env = true \/ completes run = true)
  /\ (Validation.Pipeline.GET run now <> None <-> completes run = true)
  /\ (Validation.WithMock.GET env run now <> None
      <-> isServerless env = true \/ completes run = true).
Proof.
  split; [apply strict_answers |].
  split; [apply mock_answers |].
  split; [apply ValidationFacts.pipeline_answers |].
  apply ValidationFacts.with_mock_answers.
Qed.

(** X4. Outside a serverless environment the two versions of the route
    give the same answer exactly on the runs that are not failure paths
    (exit code 0 with an output that parses, or a process that never
    settles the promise); on a failure path one answers with status 500
    and the other with status 200. *)
Theorem versions_agree_off_failure_paths JSON_parse env run :
  isServerless env = false ->
  (GET_strict JSON_parse run = GET_mock JSON_parse env run
   <-> failure_path JSON_parse run = false)
  /\ (failure_path JSON_parse run = true ->
      exists strict mock,
        GET_strict JSON_parse run = Some strict
        /\ GET_mock JSON_parse env run = Some mock
        /\ status strict = 500%Z
        /\ status mock = 200%Z).
Proof.
  intros Henv. unfold GET_strict, GET_mock. rewrite Henv.
  destruct run as [e | events]; simpl.
  - split; [split; discriminate |]. intros _. now do 2 eexists.
  - destruct (await events) as [[code out err | msg] |]; simpl.
    + destruct (nonzero code).
      * split; [split; discriminate |]. intros _. now do 2 eexists.
      * destruct (JSON_parse out).
        -- split; [split; reflexivity | discriminate].
        -- split; [split; discriminate |]. intros _. now do 2 eexists.
    + split; [split; discriminate |]. intros _. now do 2 eexists.
    + split; [split; reflexivity | discriminate].
Qed.

Lemma versions_agree_off_failure_paths_witness :
  GET_strict (fun _ => Some (JArr []))
    (Validation.closes [(true, "[1, "); (false, "warning"); (true, "2]")]
                       (Some 0%Z) [])
  = GET_mock (fun _ => Some (JArr [])) env_local
      (Validation.closes [(true, "[1, "); (false, "warning"); (true, "2]")]
                         (Some 0%Z) []).
Proof.
  apply (proj1 (@versions_agree_off_failure_paths
                  (fun _ => Some (JArr [])) env_local
                  (Validation.closes
                     [(true, "[1, "); (false, "warning"); (true, "2]")]
                     (Some 0%Z) [])
                  eq_refl)).
  reflexivity.
Defined.

(** X5. The route of [part_002] answers with status 200 or 500, and with
    200 exactly when the run is not one of its failure paths; the body is
    then a value [JSON.parse] returned. *)
Theorem strict_status_tells_failure JSON_parse run response :
  GET_strict JSON_parse run = Some response ->
  (status response = 200%Z \/ status response = 500%Z)
  /\ (status response = 200%Z <-> failure_path JSON_parse run = false)
  /\ (status response = 200%Z ->
      exists text, JSON_parse text = Some (body response)).
Proof.
  destruct run as [e | events]; simpl.
  - intros H. injection H as <-. simpl.
    repeat split; auto; discriminate.
  - destruct (await events) as [[code out err | msg] |]; simpl;
      intros H; try discriminate H; injection H as <-.
    + destruct (nonzero code); simpl.
      * repeat split; auto; discriminate.
      * destruct (JSON_parse out) as [data |] eqn:Hp; simpl.
        -- repeat split; auto. intros _. now exists out.
        -- repeat split; auto; discriminate.
    + simpl. repeat split; auto; discriminate.
Qed.

Lemma strict_status_tells_failure_witness :
  let response :=
    server_error (error_record "Failed to parse simulation results" None) in
  (status response = 200%Z \/ status response = 500%Z)
  /\ (status response = 200%Z
      <-> failure_path (fun _ => None) (Spawned [CloseEvent (Some 0%Z)])
          = false)
  /\ (status response = 200%Z ->
      exists text, (fun _ : string => @None (json R)) text
                   = Some (body response)).
Proof.
  apply (@strict_status_tells_failure (fun _ => None)
           (Spawned [CloseEvent (Some 0%Z)])
           (server_error
              (error_record "Failed to parse simulation results" None))
           eq_refl).
Defined.

(** X6. An exit code other than 0, and also no exit code at all (a process
    ended by a signal), is answered by the route of [part_002] with
    'Simulation failed' and the text of stderr as details; stdout is not
    looked at, even when it holds a complete result. *)
Theorem nonzero_exit_reports_stderr JSON_parse chunks code rest :
  nonzero code = true ->
  GET_strict JSON_parse (Validation.closes chunks code rest)
  = Some (server_error
            (error_record "Simulation failed"
                          (Some (join (stream false chunks))))).
Proof.
  intros Hc. unfold GET_strict, Validation.closes.
  rewrite await_closes_streams. simpl. now rewrite Hc.
Qed.

Lemma nonzero_exit_reports_stderr_witness :
  GET_strict (fun _ => Some JNull)
    (Validation.closes [(true, "null"); (false, "Killed")] None [])
  = Some (server_error (error_record "Simulation failed" (Some "Killed"))).
Proof.
  apply (@nonzero_exit_reports_stderr (fun _ => Some JNull)
           [(true, "null"); (false, "Killed")] None [] eq_refl).
Defined.

Lemma times_length : List.length times = 100%nat.
Proof. unfold times. now rewrite length_map, length_seq. Qed.

(** A mock record carries the four series, a hundred numbers each, and its
    note. *)
Lemma mock_record_series note error k :
  In k ["t"; "C"; "S"; "r"] ->
  exists items,
    get_field k (mock_record note error) = Some (JArr items)
    /\ List.length items = 100%nat.
Proof.
  simpl. intros [<- | [<- | [<- | [<- | []]]]].
  - exists (map (@JNum R) times). split; [reflexivity |].
    now rewrite length_map, times_length.
  - exists (map (@JNum R) (map C_of times)). split; [reflexivity |].
    now rewrite !length_map, times_length.
  - exists (map (@JNum R) (map S_of times)). split; [reflexivity |].
    now rewrite !length_map, times_length.
  - exists (map (@JNum R) (map r_of times)). split; [reflexivity |].
    now rewrite !length_map, times_length.
Qed.

Lemma mock_record_note note error :
  get_field "note" (mock_record note error) = Some (JStr note).
Proof. rewrite mock_record_field by not_a_series_key. reflexivity. Qed.

(** X7. The route of [part_001] never answers with an error status: every
    answer has status 200, and its body is either a value [JSON.parse]
    returned or the mock series (the four arrays [t], [C], [S] and [r] of a
    hundred numbers each) with a note. *)
Theorem mock_route_always_ok JSON_parse env run response :
  GET_mock JSON_parse env run = Some response ->
  status response = 200%Z
  /\ headers response = [("Content-Type", "application/json")]
  /\ ((exists text, JSON_parse text = Some (body response))
      \/ ((forall k,
              In k ["t"; "C"; "S"; "r"] ->
              exists items,
                get_field k (body response) = Some (JArr items)
                /\ List.length items = 100%nat)
          /\ exists note, get_field "note" (body response) = Some (JStr note))).
Proof.
  assert (Hmock : forall note error,
             status (ok (mock_record note error)) = 200%Z
             /\ headers (ok (mock_record note error))
                = [("Content-Type", "application/json")]
             /\ ((exists text,
                     JSON_parse text = Some (body (ok (mock_record note error))))
                 \/ ((forall k,
                         In k ["t"; "C"; "S"; "r"] ->
                         exists items,
                           get_field k (body (ok (mock_record note error)))
                           = Some (JArr items)
                           /\ List.length items = 100%nat)
                     /\ exists n,
                         get_field "note" (body (ok (mock_record note error)))
                         = Some (JStr n)))).
  { intros note error. split; [reflexivity |]. split; [reflexivity |].
    right. cbn [body ok]. split.
    - intros k Hk. now apply mock_record_series.
    - exists note. apply mock_record_note. }
  unfold GET_mock. destruct (isServerless env).
  - intros H. injection H as <-. apply Hmock.
  - destruct run as [e | events].
    + intros H. injection H as <-. apply Hmock.
    + destruct (await events) as [[code out err | msg] |];
        cbn [option_map settle_mock]; intros H; try discriminate H;
        injection H as <-.
      * destruct (nonzero code); [apply Hmock |].
        destruct (JSON_parse out) as [data |] eqn:Hp; [| apply Hmock].
        split; [reflexivity |]. split; [reflexivity |].
        left. now exists out.
      * apply Hmock.
Qed.

Lemma mock_route_always_ok_witness :
  exists response,
    GET_mock (fun _ => None) env_local
      (Spawned [ErrorEvent "spawn python3 ENOENT"]) = Some response
    /\ status response = 200%Z.
Proof.
  eexists. split; [reflexivity |].
  apply (@mock_route_always_ok (fun _ => None) env_local
           (Spawned [ErrorEvent "spawn python3 ENOENT"]) _ eq_refl).
Defined.

Lemma truthy_iff v :
  truthy v = true <-> exists s, v = Some s /\ s <> EmptyString.
Proof.
  destruct v as [s |]; simpl.
  - destruct (String.eqb_spec s EmptyString) as [-> | Hs]; simpl.
    + split; [discriminate | intros [s [E Hs]]; congruence].
    + split; [intros _; now exists s | reflexivity].
  - split; [discriminate | intros [s [E _]]; discriminate].
Qed.

(** X8. The versions with mock data take the serverless path exactly when
    [VERCEL] or [AWS_LAMBDA_FUNCTION_NAME] is set to a non-empty string (a
    variable set to the empty string counts as unset); they then answer
    with the mock data at once, whatever the process would do, also when it
    would never finish. *)
Theorem serverless_answers_without_process JSON_parse env run now :
  (isServerless env = true
   <-> (exists s, VERCEL env = Some s /\ s <> EmptyString)
       \/ (exists s, AWS_LAMBDA_FUNCTION_NAME env = Some s
                     /\ s <> EmptyString))
  /\ (isServerless env = true ->
      GET_mock JSON_parse env run
      = Some (ok (mock_record
                    "Mock data - Python backend not available in serverless environment"
                    None))
      /\ Validation.WithMock.GET env run now
         = Some (ok (Validation.Report
                       (Validation.WithMock.generateMockValidationStatus now)))).
Proof.
  split.
  - unfold isServerless. rewrite orb_true_iff, !truthy_iff. reflexivity.
  - intros Henv. unfold GET_mock, Validation.WithMock.GET.
    now rewrite Henv.
Qed.

Lemma serverless_answers_without_process_witness :
  GET_mock (fun _ => None) (mkEnv (Some EmptyString) (Some "fps-sim"))
    (Spawned [])
  = Some (ok (mock_record
                "Mock data - Python backend not available in serverless environment"
                None)).
Proof.
  apply (proj2 (@serverless_answers_without_process (fun _ => None)
                  (mkEnv (Some EmptyString) (Some "fps-sim")) (Spawned [])
                  EmptyString) eq_refl).
Defined.

Lemma fallback_failures_carry_note_witness :
  exists response note,
    GET_mock (fun _ => None) env_local
      (Spawned [StdoutData "Traceback"; CloseEvent (Some 0%Z)])
    = Some response
    /\ status response = 200%Z
    /\ get_field "note" (body response) = Some (JStr note).
Proof.
  apply (@fallback_failures_carry_note (fun _ => None)
           (Spawned [StdoutData "Traceback"; CloseEvent (Some 0%Z)])
           eq_refl).
Defined.

Lemma fallback_without_error_field_witness :
  exists response,
    GET_mock (fun _ => None) env_local
      (Spawned (data_events [(true, "not json")]
                ++ CloseEvent (Some 0%Z) :: []))
    = Some response
    /\ get_field "error" (body response) = None.
Proof.
  apply (proj1 (@fallback_without_error_field (fun _ => None)
                  [(true, "not json")] "spawn python3 ENOENT" []
                  eq_refl)).
Defined.

End SimRouteFacts.

(* ================================================================= *)
(** * Further properties of the mock series *)

Module SeriesFacts.
Import Sim SimFacts SimRouteFacts.

Local Open Scope R_scope.

Lemma Forall2_map_in (A B : Type) (P : A -> B -> Prop) (g : A -> B)
    (xs : list A) :
  (forall x, In x xs -> P x (g x)) -> Forall2 P xs (map g xs).
Proof.
  induction xs as [| x xs IH]; intros H; simpl; constructor.
  - apply H. now left.
  - apply IH. intros y Hy. apply H. now right.
Qed.

Lemma times_nonneg time : In time times -> 0 <= time.
Proof.
  unfold times. intros H. apply in_map_iff in H. destruct H as [i [<- _]].
  pose proof (pos_INR i). nra.
Qed.

Lemma exp_le_1 x : x <= 0 -> exp x <= 1.
Proof.
  intros [Hlt | ->].
  - rewrite <- exp_0. left. now apply exp_increasing.
  - rewrite exp_0. lra.
Qed.

(** X11. Every sample of the mock signal [S] lies under the decaying
    envelope [exp (- 0.01 t)] of its sample time, which never exceeds 1. *)
Theorem mock_signal_under_envelope :
  Forall2 (fun time s => Rabs s <= exp (- time * 0.01)
                         /\ exp (- time * 0.01) <= 1)
          (sim_t generateMockSimData) (sim_S generateMockSimData).
Proof.
  unfold generateMockSimData; cbv zeta; cbn [sim_t sim_S].
  apply Forall2_map_in. intros time Ht. apply times_nonneg in Ht.
  split.
  - unfold S_of. rewrite Rabs_mult.
    rewrite (Rabs_pos_eq (exp _)) by (left; apply exp_pos).
    pose proof (SIN_bound (2 * PI * 0.1 * time)) as Hs.
    assert (Habs : Rabs (sin (2 * PI * 0.1 * time)) <= 1)
      by (apply Rabs_le; lra).
    pose proof (exp_pos (- time * 0.01)). nra.
  - apply exp_le_1. lra.
Qed.

(** X12. Every sample of the mock centre signal [C] lies between 0.2 and
    0.8. *)
Theorem mock_centre_in_range :
  Forall (fun c => 0.2 <= c <= 0.8) (sim_C generateMockSimData).
Proof.
  unfold generateMockSimData; cbv zeta; cbn [sim_C].
  apply Forall_forall. intros c Hc.
  apply in_map_iff in Hc. destruct Hc as [time [<- _]].
  unfold C_of. pose proof (COS_bound (2 * PI * 0.05 * time)). lra.
Qed.

End SeriesFacts.

(* ================================================================= *)
(** * Further properties of the two verdicts *)

Module RuleFacts.
Import Json Http Validation Rules ValidationFacts.

Local Open Scope Q_scope.

Lemma counts_le ls :
  (count_status Pass ls + count_status Partial ls <= List.length ls)%nat.
Proof.
  unfold count_status. induction ls as [| l ls IH]; simpl; [lia |].
  destruct (status l); simpl; lia.
Qed.

Lemma num_nonneg n : 0 <= num n.
Proof.
  unfold num. change 0 with (inject_Z 0). rewrite <- Zle_Qle. lia.
Qed.

Lemma num_le a b : (a <= b)%nat -> num a <= num b.
Proof. intros H. unfold num. rewrite <- Zle_Qle. lia. Qed.

Lemma num_add a b : num (a + b) == num a + num b.
Proof. unfold num. now rewrite Nat2Z.inj_add, inject_Z_plus. Qed.

Lemma num_positive n : (0 < n)%nat -> 0 < num n.
Proof.
  intros H. unfold num. change 0 with (inject_Z 0). rewrite <- Zlt_Qlt. lia.
Qed.

Lemma nonempty_length (ls : list ValidationLayer) :
  ls <> [] -> (0 < List.length ls)%nat.
Proof. destruct ls; [congruence | simpl; lia]. Qed.

(** A quotient against a bound, with the divisor moved to the other
    side. *)
Lemma div_le_iff x n c : 0 < n -> (x / n <= c <-> x <= c * n).
Proof.
  intros Hn. split; intros H.
  - assert (E : x == x / n * n) by (field; Lqa.lra).
    rewrite E. apply Qmult_le_compat_r; [exact H | Lqa.lra].
  - now apply Qle_shift_div_r.
Qed.

Lemma le_div_iff x n c : 0 < n -> (c <= x / n <-> c * n <= x).
Proof.
  intros Hn. split; intros H.
  - assert (E : x == x / n * n) by (field; Lqa.lra).
    rewrite E. apply Qmult_le_compat_r; [exact H | Lqa.lra].
  - now apply Qle_shift_div_l.
Qed.

Lemma threshold_counts p q n :
  0.8 * num n <= num p + num q * 0.5 <-> (8 * n <= 10 * p + 5 * q)%nat.
Proof.
  assert (E : inject_Z (8 * Z.of_nat n)
              <= inject_Z (10 * Z.of_nat p + 5 * Z.of_nat q)
              <-> 0.8 * num n <= num p + num q * 0.5).
  { rewrite inject_Z_plus, !inject_Z_mult. unfold num.
    change (inject_Z 8) with 8. change (inject_Z 10) with 10.
    change (inject_Z 5) with 5.
    split; intros H; Lqa.lra. }
  rewrite <- E, <- Zle_Qle. lia.
Qed.

Lemma closeOverall_pass_iff_witness :
  overall_status (closeOverall (restatus [Pass; Pass] mockLayers) "now")
  = OverallPass
  <-> all_pass (restatus [Pass; Pass] mockLayers) = true.
Proof.
  apply (@closeOverall_pass_iff (restatus [Pass; Pass] mockLayers) "now").
  discriminate.
Defined.

(** X15. On every non-empty array of layers, the score of the mock
    computation is the weighted fraction (pass 1, partial 0.5, anything
    else 0, over the number of layers), and it lies between 0 and 1. *)
Theorem mock_score_weighted_and_bounded ls now :
  ls <> [] ->
  overall_score (mockOverall ls now) == spec_weighted_fraction ls
  /\ 0 <= overall_score (mockOverall ls now) <= 1.
Proof.
  intros Hne. apply nonempty_length in Hne.
  split; [apply mockOverall_score |].
  unfold mockOverall; simpl overall_score.
  pose proof (num_positive Hne) as Hn.
  pose proof (num_nonneg (count_status Pass ls)) as Hp.
  pose proof (num_nonneg (count_status Partial ls)) as Hq.
  pose proof (num_le (counts_le ls)) as Hle. rewrite num_add in Hle.
  split.
  - apply le_div_iff; [exact Hn | Lqa.lra].
  - apply div_le_iff; [exact Hn | Lqa.lra].
Qed.

Lemma mock_score_weighted_and_bounded_witness :
  overall_score (mockOverall mockLayers "now")
  == spec_weighted_fraction mockLayers
  /\ 0 <= overall_score (mockOverall mockLayers "now") <= 1.
Proof.
  apply (@mock_score_weighted_and_bounded mockLayers "now"). discriminate.
Defined.

(** X16. The verdict of the mock computation is a threshold and not
    unanimity: on a non-empty array it is ['pass'] exactly when
    [10 * passed + 5 * partial >= 8 * total]. *)
Theorem mock_rule_is_a_threshold ls now :
  ls <> [] ->
  (overall_status (mockOverall ls now) = OverallPass
   <-> reaches_threshold ls = true).
Proof.
  intros Hne. apply nonempty_length in Hne.
  unfold reaches_threshold. rewrite Nat.leb_le, <- threshold_counts.
  rewrite <- (le_div_iff _ _ (num_positive Hne)), <- Qle_bool_iff.
  unfold mockOverall; simpl overall_status.
  destruct (Qle_bool _ _); split; congruence.
Qed.

Lemma mock_rule_is_a_threshold_witness :
  overall_status
    (mockOverall (restatus [Pass; Pass; Pass; Partial; Partial] mockLayers)
                 "now") = OverallPass
  <-> reaches_threshold
        (restatus [Pass; Pass; Pass; Partial; Partial] mockLayers) = true.
Proof.
  apply (@mock_rule_is_a_threshold
           (restatus [Pass; Pass; Pass; Partial; Partial] mockLayers) "now").
  discriminate.
Defined.

(** X17. On the same non-empty array the ['close'] computation is the
    stricter of the two: its score is never above the score of the mock
    computation, and whenever it says ['pass'] the mock computation says
    ['pass'] too. *)
Theorem close_rule_is_stricter ls now :
  ls <> [] ->
  overall_score (closeOverall ls now) <= overall_score (mockOverall ls now)
  /\ (overall_status (closeOverall ls now) = OverallPass ->
      overall_status (mockOverall ls now) = OverallPass).
Proof.
  intros Hne. apply nonempty_length in Hne.
  pose proof (num_positive Hne) as Hn.
  pose proof (num_nonneg (count_status Partial ls)) as Hq.
  assert (Hscore : overall_score (closeOverall ls now)
                   <= overall_score (mockOverall ls now)).
  { unfold closeOverall, mockOverall; simpl overall_score.
    apply div_le_iff; [exact Hn |].
    assert (E : (num (count_status Pass ls)
                 + num (count_status Partial ls) * 0.5)
                / num (List.length ls) * num (List.length ls)
                == num (count_status Pass ls)
                   + num (count_status Partial ls) * 0.5)
      by (field; Lqa.lra).
    rewrite E. Lqa.lra. }
  split; [exact Hscore |].
  unfold closeOverall, mockOverall in *; simpl in *.
  destruct (Qeq_bool _ _) eqn:E; [intros _ | discriminate].
  apply Qeq_bool_iff in E. rewrite E in Hscore.
  destruct (Qle_bool _ _) eqn:E'; [reflexivity |].
  assert (Hle : 0.8 <= (num (count_status Pass ls)
                        + num (count_status Partial ls) * 0.5)
                       / num (List.length ls)) by Lqa.lra.
  apply Qle_bool_iff in Hle. congruence.
Qed.

Lemma close_rule_is_stricter_witness :
  overall_score (closeOverall localLayers "now")
  <= overall_score (mockOverall localLayers "now")
  /\ (overall_status (closeOverall localLayers "now") = OverallPass ->
      overall_status (mockOverall localLayers "now") = OverallPass).
Proof.
  apply (@close_rule_is_stricter localLayers "now"). discriminate.
Defined.

Import Binary64.

(** X18. In binary64, the arithmetic JavaScript uses, the two verdicts on
    an array of one to five layers are what exact arithmetic gives: the
    ['close'] computation says ['pass'] exactly when every layer passes,
    and the mock computation exactly when
    [10 * passed + 5 * partial >= 8 * total]. *)
Theorem binary64_verdicts ss :
  restatus ss mockLayers <> [] ->
  is_pass (snd (closeOverall_b64 (restatus ss mockLayers)))
  = all_pass (restatus ss mockLayers)
  /\ is_pass (snd (mockOverall_b64 (restatus ss mockLayers)))
     = reaches_threshold (restatus ss mockLayers).
Proof.
  destruct ss as [| [] [| [] [| [] [| [] [| [] ss]]]]];
    intros Hne; try (exfalso; apply Hne; reflexivity);
    vm_compute; split; reflexivity.
Qed.

Lemma binary64_verdicts_witness :
  is_pass (snd (closeOverall_b64
                  (restatus [Pass; Pass; Pass; Pass; Fail] mockLayers)))
  = all_pass (restatus [Pass; Pass; Pass; Pass; Fail] mockLayers)
  /\ is_pass (snd (mockOverall_b64
                     (restatus [Pass; Pass; Pass; Pass; Fail] mockLayers)))
     = reaches_threshold (restatus [Pass; Pass; Pass; Pass; Fail] mockLayers).
Proof.
  apply (@binary64_verdicts [Pass; Pass; Pass; Pass; Fail]). discriminate.
Defined.

End RuleFacts.

(* ================================================================= *)
(** * Further properties of the validation-status route *)

Module ValidationRouteFacts.
Import Json Http Chunks Validation HttpFacts ValidationFacts.

(** X19. The answer to a process that closes depends on nothing the
    process did: for any two outputs and any two exit codes both versions
    of the route give the same answer at the same reading of the clock,
    with status 200, also when the validation script exits with an error
    code. *)
Theorem close_answer_ignores_process chunks chunks' code code' rest rest' now :
  Pipeline.GET (closes chunks code rest) now
  = Pipeline.GET (closes chunks' code' rest') now
  /\ WithMock.GET env_local (closes chunks code rest) now
     = WithMock.GET env_local (closes chunks' code' rest') now
  /\ Pipeline.GET (closes chunks code rest) now
     = Some (ok (Report (closeOverall localLayers now))).
Proof.
  unfold Pipeline.GET, WithMock.GET, closes.
  change (isServerless env_local) with false. cbv iota.
  rewrite !await_closes. repeat split.
Qed.

(** X20. The version of [+server.ts] answers with status 200 and a report
    when the process closes, and otherwise with status 500 and a record
    whose [error] is 'Failed to run validation' (the process did not
    start) or 'Internal server error' (an exception was caught), with a
    [details] text. *)
Theorem pipeline_answers_report_or_error run now response :
  Pipeline.GET run now = Some response ->
  (Http.status response = 200%Z
   /\ body response = Report (closeOverall localLayers now)
   /\ exists events code out err,
       run = Spawned events /\ await events = Some (Close code out err))
  \/ (Http.status response = 500%Z
      /\ exists error details,
          body response = Failure error details
          /\ In error ["Failed to run validation"; "Internal server error"]
          /\ keys (stringify (body response)) = ["error"; "details"]).
Proof.
  destruct run as [e | events]; simpl.
  - intros H. injection H as <-. right. split; [reflexivity |].
    eexists. eexists. split; [reflexivity |]. simpl. auto.
  - destruct (await events) as [[code out err | msg] |] eqn:Ha; simpl;
      intros H; try discriminate H; injection H as <-.
    + left. split; [reflexivity |]. split; [reflexivity |].
      now exists events, code, out, err.
    + right. split; [reflexivity |].
      eexists. eexists. split; [reflexivity |]. simpl. auto.
Qed.

Lemma pipeline_answers_report_or_error_witness :
  let response :=
    server_error (Failure "Failed to run validation" "spawn python3 ENOENT") in
  (Http.status response = 200%Z
   /\ body response = Report (closeOverall localLayers "now")
   /\ exists events code out err,
       Spawned [ErrorEvent "spawn python3 ENOENT"] = Spawned events
       /\ await events = Some (Close code out err))
  \/ (Http.status response = 500%Z
      /\ exists error details,
          body response = Failure error details
          /\ In error ["Failed to run validation"; "Internal server error"]
          /\ keys (stringify (body response)) = ["error"; "details"]).
Proof.
  apply (@pipeline_answers_report_or_error
           (Spawned [ErrorEvent "spawn python3 ENOENT"]) "now"
           (server_error
              (Failure "Failed to run validation" "spawn python3 ENOENT"))
           eq_refl).
Defined.

(** X21. The version of [part_000] never answers with an error: whatever
    the environment and whatever happens to the process, an answer has
    status 200 and carries a report, the one of the ['close'] handler or
    the mock one. *)
Theorem with_mock_always_reports env run now response :
  WithMock.GET env run now = Some response ->
  Http.status response = 200%Z
  /\ headers response = [("Content-Type", "application/json")]
  /\ (body response = Report (closeOverall localLayers now)
      \/ body response = Report (WithMock.generateMockValidationStatus now)).
Proof.
  unfold WithMock.GET. destruct (isServerless env).
  - intros H. injection H as <-. auto.
  - destruct run as [e | events].
    + intros H. injection H as <-. auto.
    + destruct (await events) as [[code out err | msg] |]; simpl;
        intros H; try discriminate H; injection H as <-; auto.
Qed.

Lemma with_mock_always_reports_witness :
  let response :=
    ok (Report (WithMock.generateMockValidationStatus "now")) in
  Http.status response = 200%Z
  /\ headers response = [("Content-Type", "application/json")]
  /\ (body response = Report (closeOverall localLayers "now")
      \/ body response = Report (WithMock.generateMockValidationStatus "now")).
Proof.
  apply (@with_mock_always_reports env_local
           (Spawned [StderrData "No module named fps";
                     ErrorEvent "spawn python3 ENOENT"]) "now"
           (ok (Report (WithMock.generateMockValidationStatus "now")))
           eq_refl).
Defined.

End ValidationRouteFacts.

(* ================================================================= *)
(** * Properties of the page *)

Module PageFacts.
Import Json Http Validation Sim Page HttpFacts ValidationFacts SimFacts.

Lemma lookup_store_same k v o : lookup k (store k v o) = Some v.
Proof.
  induction o as [| [k' v'] o IH]; simpl.
  - now rewrite String.eqb_refl.
  - destruct (String.eqb k k') eqn:E; simpl.
    + now rewrite String.eqb_refl.
    + now rewrite E.
Qed.

Lemma lookup_store_other k k' v o :
  k' <> k -> lookup k' (store k v o) = lookup k' o.
Proof.
  intros Hk. induction o as [| [k'' v''] o IH]; simpl.
  - destruct (String.eqb_spec k' k); [congruence | reflexivity].
  - destruct (String.eqb_spec k k'') as [-> | Hne]; simpl.
    + destruct (String.eqb_spec k' k''); [congruence | reflexivity].
    + destruct (String.eqb k' k''); [reflexivity | exact IH].
Qed.

Lemma store_keys k v o :
  map fst (store k v o)
  = if existsb (String.eqb k) (map fst o) then map fst o
    else map fst o ++ [k].
Proof.
  induction o as [| [k' v'] o IH]; simpl; [reflexivity |].
  destruct (String.eqb_spec k k') as [-> | Hne]; simpl; [reflexivity |].
  rewrite IH. now destruct (existsb (String.eqb k) (map fst o)).
Qed.

Lemma store_nodup k v o :
  NoDup (map fst o) -> NoDup (map fst (store k v o)).
Proof.
  intros Hnd. rewrite store_keys.
  destruct (existsb (String.eqb k) (map fst o)) eqn:E; [exact Hnd |].
  apply NoDup_app; [exact Hnd | repeat constructor; intros [] |].
  intros x Hx [Hk | []]. subst x.
  assert (existsb (String.eqb k) (map fst o) = true)
    by (apply existsb_exists; exists k; split;
        [exact Hx | apply String.eqb_refl]).
  congruence.
Qed.

(** X22. For every section name other than ['__proto__'], [toggleDetails]
    flips what that section shows and what no other section shows; a
    second click restores what every section showed; and the object never
    gets the same key twice.  Applied to ['__proto__'] it changes
    nothing. *)
Theorem toggle_details_flips_one_section inherited st section :
  section <> "__proto__" ->
  shown inherited (showDetails (toggleDetails inherited st section)) section
  = negb (shown inherited (showDetails st) section)
  /\ (forall other,
         other <> section ->
         shown inherited (showDetails (toggleDetails inherited st section))
               other
         = shown inherited (showDetails st) other)
  /\ (forall k,
         shown inherited
               (showDetails
                  (toggleDetails inherited
                     (toggleDetails inherited st section) section)) k
         = shown inherited (showDetails st) k)
  /\ (NoDup (map fst (showDetails st)) ->
      NoDup (map fst (showDetails (toggleDetails inherited st section))))
  /\ toggleDetails inherited st "__proto__" = st.
Proof.
  intros Hsec.
  assert (Hassign : forall v o, assign section v o = store section v o).
  { intros v o. unfold assign.
    destruct (String.eqb_spec section "__proto__"); [congruence | reflexivity]. }
  assert (Hsame : forall o,
             shown inherited
                   (store section (negb (shown inherited o section)) o)
                   section
             = negb (shown inherited o section)).
  { intros o. unfold shown at 1. now rewrite lookup_store_same. }
  assert (Hother : forall o v other,
             other <> section ->
             shown inherited (store section v o) other
             = shown inherited o other).
  { intros o v other Hne. unfold shown.
    now rewrite lookup_store_other. }
  unfold toggleDetails; simpl. rewrite !Hassign.
  split; [apply Hsame |].
  split; [intros other Hne; now apply Hother |].
  split; [| split; [apply store_nodup | now destruct st]].
  intros k. destruct (String.eqb_spec k section) as [-> | Hne].
  - rewrite !Hsame. apply negb_involutive.
  - now rewrite !Hother.
Qed.

Lemma toggle_details_flips_one_section_witness :
  shown (fun k => String.eqb k "constructor")
        (showDetails
           (toggleDetails (fun k => String.eqb k "constructor") initial "eq1"))
        "eq1"
  = negb (shown (fun k => String.eqb k "constructor") (showDetails initial)
                "eq1").
Proof.
  apply (@toggle_details_flips_one_section
           (fun k => String.eqb k "constructor") initial "eq1").
  discriminate.
Defined.

(** A fulfilled request either stores the body or leaves the variables as
    they were, by the status of the response. *)
Lemma strict_failure_answer JSON_parse run :
  failure_path JSON_parse run = true ->
  exists record, GET_strict JSON_parse run = Some (server_error record).
Proof.
  destruct run as [e | events]; simpl.
  - intros _. now eexists.
  - destruct (await events) as [[code out err | msg] |]; simpl;
      [| | discriminate].
    + destruct (nonzero code); [intros _; now eexists |].
      destruct (JSON_parse out); [discriminate | intros _; now eexists].
    + intros _. now eexists.
Qed.

Lemma mock_failure_answer JSON_parse run :
  failure_path JSON_parse run = true ->
  exists note error,
    GET_mock JSON_parse env_local run = Some (ok (mock_record note error)).
Proof.
  unfold GET_mock. change (isServerless env_local) with false. cbv iota.
  destruct run as [e | events]; cbn [failure_path].
  - intros _. now do 2 eexists.
  - destruct (await events) as [[code out err | msg] |];
      cbn [failure option_map settle_mock]; [| | discriminate].
    + destruct (nonzero code); [intros _; now do 2 eexists |].
      destruct (JSON_parse out); [discriminate | intros _; now do 2 eexists].
    + intros _. now do 2 eexists.
Qed.

(** X23. What the page keeps as [validationStatus] after
    [loadValidationStatus] is a report or what it had before, never the
    error record of a failed request: with the version of [+server.ts] an
    answer with status 500 leaves the variable as it was, and with the
    version of [part_000] every answer is stored and is a report.  The
    other variables are not touched, and [isLoading] is reset exactly when
    the route answers. *)
Theorem page_stores_only_reports st env run now :
  let st1 := loadValidationStatus st (fetched (Pipeline.GET run now)) in
  let st2 := loadValidationStatus st (fetched (WithMock.GET env run now)) in
  (validationStatus st1 = validationStatus st
   \/ exists v,
       produced v
       /\ validationStatus st1 = Some (ValidationStatus_to_json v))
  /\ (forall response error details,
         Pipeline.GET run now = Some response ->
         body response = Failure error details ->
         validationStatus st1 = validationStatus st)
  /\ (isLoading st1 = false <-> completes run = true)
  /\ (forall response,
         WithMock.GET env run now = Some response ->
         exists v,
           produced v
           /\ validationStatus st2 = Some (ValidationStatus_to_json v))
  /\ simulationResults st1 = simulationResults st
  /\ showDetails st1 = showDetails st
  /\ currentTab st1 = currentTab st.
Proof.
  cbv zeta. split; [| split; [| split; [| split]]].
  - destruct run as [e | events]; simpl; [now left |].
    destruct (await events) as [[code out err | msg] |]; simpl;
      [right | now left | now left].
    exists (closeOverall localLayers now). split; [| reflexivity].
    apply produced_close.
  - intros response error details Hget Hbody.
    rewrite Hget. simpl. unfold response_ok.
    destruct run as [e | events]; simpl in Hget.
    + injection Hget as <-. reflexivity.
    + destruct (await events) as [[code out err | msg] |]; simpl in Hget;
        try discriminate Hget; injection Hget as <-;
        [discriminate Hbody | reflexivity].
  - rewrite <- (pipeline_answers run now).
    destruct (Pipeline.GET run now) as [response |]; simpl.
    + destruct (response_ok response); simpl;
        (split; [intros _; discriminate | reflexivity]).
    + split; [discriminate | intros H; now contradict H].
  - intros response Hget. rewrite Hget. simpl.
    unfold WithMock.GET in Hget. destruct (isServerless env).
    + injection Hget as <-. simpl. eexists. split; [apply produced_mock |].
      reflexivity.
    + destruct run as [e | events].
      * injection Hget as <-. simpl. eexists.
        split; [apply produced_mock | reflexivity].
      * destruct (await events) as [[code out err | msg] |]; simpl in Hget;
          try discriminate Hget; injection Hget as <-; simpl; eexists.
        -- split; [apply produced_close | reflexivity].
        -- split; [apply produced_mock | reflexivity].
  - destruct (Pipeline.GET run now) as [response |]; simpl;
      [destruct (response_ok response) |]; repeat split.
Qed.

(** X24. On a failure path of the simulation the page keeps the results
    it had when the route is the one of [part_002] (the error record is
    not stored), and stores the mock series with a note, as if they were
    results, when the route is the one of [part_001]. *)
Theorem page_results_after_failure JSON_parse st run :
  failure_path JSON_parse run = true ->
  let st1 := loadSimulationResults st (fetched (GET_strict JSON_parse run)) in
  let st2 :=
    loadSimulationResults st (fetched (GET_mock JSON_parse env_local run)) in
  simulationResults st1 = simulationResults st
  /\ isLoading st1 = false
  /\ isLoading st2 = false
  /\ exists data note,
       simulationResults st2 = Some data
       /\ get_field "note" data = Some (JStr note)
       /\ (exists items,
              get_field "r" data = Some (JArr items)
              /\ List.length items = 100%nat).
Proof.
  intros Hf. cbv zeta.
  destruct (strict_failure_answer JSON_parse run Hf) as [record ->].
  destruct (mock_failure_answer JSON_parse run Hf) as [note [error ->]].
  simpl. repeat split.
  exists (mock_record note error), note. split; [reflexivity |].
  split; [apply SimRouteFacts.mock_record_note |].
  apply SimRouteFacts.mock_record_series. simpl. auto.
Qed.

Lemma page_results_after_failure_witness :
  simulationResults
    (loadSimulationResults initial
       (fetched (GET_strict (fun _ => None)
                   (Spawned [StdoutData "Traceback"; CloseEvent (Some 0%Z)]))))
  = simulationResults initial.
Proof.
  apply (@page_results_after_failure (fun _ => None) initial
           (Spawned [StdoutData "Traceback"; CloseEvent (Some 0%Z)])
           eq_refl).
Defined.

(** X25. Whatever report either version of the route returns, the headline
    of the validation tab reads 'VALIDATION FAILED', with 0% complete for
    the report of the ['close'] handler and 70% for the mock report; it
    never reads 'PAPER VALIDATED'. *)
Theorem page_headline_for_reports v :
  produced v ->
  headline (ValidationStatus_to_json v) = ValidationFailed (Some 0%Z)
  \/ headline (ValidationStatus_to_json v) = ValidationFailed (Some 70%Z).
Proof.
  intros H. by_report H; [left | right]; reflexivity.
Qed.

Lemma page_headline_for_reports_witness :
  headline (ValidationStatus_to_json
              (WithMock.generateMockValidationStatus "now"))
  = ValidationFailed (Some 0%Z)
  \/ headline (ValidationStatus_to_json
                 (WithMock.generateMockValidationStatus "now"))
     = ValidationFailed (Some 70%Z).
Proof.
  apply (@page_headline_for_reports
           (WithMock.generateMockValidationStatus "now")).
  apply produced_with_mock
    with (env := env_vercel) (run := Throws OtherValue) (now := "now").
  reflexivity.
Defined.

End PageFacts.
